(** * MindBalance AI: the mental-health-score model of [app.py]

    A shallow embedding of the computational core of [src/app.py]: the
    three normalisation functions, the weight table [FEATURE_WEIGHTS], the
    weighted score [mhs_score], its tier banding and the list of
    [recommendations].

    Numbers.  Python's [float] values are read as exact rationals ([Q]):
    [+], [-], [*] and [/] are the field operations, so the general
    theorems speak about the arithmetic the program denotes.  Integer
    widget values are [Z] and enter the arithmetic through [inject_Z].
    Equality of computed numbers is [Qeq] ([==]).  The quoted test vectors
    are evaluated a second time in [Binary64], on double-precision floats
    with their rounding.

    Exceptions.  A Python expression that can raise is a computation in the
    [result] monad below ([ZeroDivisionError] from [/], [KeyError] from a
    dictionary subscript, [TypeError] from arithmetic on [None]).

    Python numbers.  The reading over [Q] has one number type; it cannot
    tell an [int] from a [float], so it has no [OverflowError].  Module
    [Py] keeps the two apart: integers are unbounded, and an integer that
    does not fit a double makes [-] and [/] raise. *)

From Stdlib Require Import QArith Qminmax Lqa ZArith Lia Bool List String.
From Stdlib Require Import PrimFloat.
Import ListNotations.

Local Open Scope Q_scope.

(* ------------------------------------------------------------------ *)
(** ** Python values and exceptions *)

Inductive exn : Type :=
| ZeroDivisionError
| OverflowError
| KeyError
| TypeError.

Inductive result (A : Type) : Type :=
| Ok (a : A)
| Raise (e : exn).

Arguments Ok {A} a.
Arguments Raise {A} e.

Definition bind {A B : Type} (m : result A) (k : A -> result B) : result B :=
  match m with
  | Ok a => k a
  | Raise e => Raise e
  end.

Notation "x <- m ;; k" := (bind m (fun x => k))
  (at level 61, m at next level, right associativity).

(** [r ~> q]: the computation [r] returns a number equal to [q]. *)
Definition returns (r : result Q) (q : Q) : Prop :=
  exists v, r = Ok v /\ v == q.

Notation "r ~> q" := (returns r q) (at level 70, no associativity).

(** Comparisons as the booleans Python branches on. *)
Definition Qltb (x y : Q) : bool := negb (Qle_bool y x).
Definition Qleb (x y : Q) : bool := Qle_bool x y.

Module Import PyNotations.
  Infix "<?" := Qltb (at level 70, no associativity) : Q_scope.
  Infix "<=?" := Qleb (at level 70, no associativity) : Q_scope.
  Notation "x >? y" := (Qltb y x)
    (at level 70, no associativity, only parsing) : Q_scope.
  Notation "x >=? y" := (Qleb y x)
    (at level 70, no associativity, only parsing) : Q_scope.
End PyNotations.

(** [a / b] in the reading over [Q]: the quotient of two real numbers,
    undefined at a zero divisor.  What [/] does to integers too large for
    a double is in [Py.truediv]. *)
Definition py_div (a b : Q) : result Q :=
  if Qeq_bool b 0 then Raise ZeroDivisionError else Ok (a / b).

(** [np.clip(a, a_min, a_max)], that is [minimum(a_max, maximum(a, a_min))]. *)
Definition clip (a a_min a_max : Q) : Q := Qmin (Qmax a a_min) a_max.

(* ------------------------------------------------------------------ *)
(** ** The normalisation functions (app.py, lines 9-26) *)

(** Positive contributor normalization: more = better. *)
Definition normalize_positive (x min_val max_val : Q) : result Q :=
  t <- py_div (x - min_val) (max_val - min_val) ;;
  Ok (clip t 0 1).

(** Negative contributor normalization: more = worse. *)
Definition normalize_negative (x min_val max_val : Q) : result Q :=
  t <- py_div (x - min_val) (max_val - min_val) ;;
  Ok (clip (1 - t) 0 1).

(** Piecewise normalization for sleep duration.  The function is an
    [if]/[elif] chain without a final [else]: falling off its end returns
    Python's [None], rendered here as [None]. *)
Definition normalize_sleep (x : Q) : option Q :=
  if (x <? 4) || (x >? 12) then Some 0
  else if (4 <=? x) && (x <? 7) then Some ((x - 4) / 3)
  else if (7 <=? x) && (x <=? 9) then Some 1
  else if (9 <? x) && (x <=? 12) then Some (1 - (x - 9) / 3)
  else None.

(* ------------------------------------------------------------------ *)
(** ** The weight table (app.py, lines 28-41) *)

Local Open Scope string_scope.
Local Open Scope Q_scope.

(** A Python [dict] with string keys, in insertion order. *)
Definition dict : Type := list (string * Q).

(** [d[key]]: the first binding of [key], or [KeyError]. *)
Fixpoint getitem (d : dict) (key : string) : result Q :=
  match d with
  | [] => Raise KeyError
  | (k, v) :: d' => if String.eqb k key then Ok v else getitem d' key
  end.

Definition keys (d : dict) : list string := map fst d.
Definition values (d : dict) : list Q := map snd d.

(** Python's [sum]: a left fold from [0]. *)
Definition Qsum (l : list Q) : Q := fold_left Qplus l 0.

(** Feature weights (sum = 1). *)
Definition FEATURE_WEIGHTS : dict :=
  [ ("Sleep_Hours", 0.1);
    ("Daily_Steps", 0.1);
    ("Exercise_Frequency", 0.1);
    ("Exercise_Duration", 0.1);
    ("Diet_Quality", 0.1);
    ("Social_Interaction", 0.1);
    ("Happiness_Level", 0.1);
    ("Screen_Time_Hours", 0.1);
    ("Stress_Level", 0.1);
    ("Anxiety_Level", 0.05);
    ("Depression_Level", 0.05) ].

(* ------------------------------------------------------------------ *)
(** ** The input batch (app.py, lines 55-74) *)

(** One value per widget.  The two float sliders give rationals, the
    integer sliders and number inputs give integers, the select boxes
    give strings. *)
Record Inputs : Type := mkInputs {
  age : Z;
  gender : string;
  occupation : string;
  sleep_hours : Q;
  daily_steps : Z;
  diet_quality : Z;
  social_interaction : Z;
  exercise_frequency : Z;
  exercise_duration : Z;
  exercise_type : string;
  screen_time : Q;
  stress_level : Z;
  anxiety_level : Z;
  depression_level : Z;
  happiness_level : Z
}.

(** The ranges the widgets declare for the eleven scored features. *)
Record in_domain (i : Inputs) : Prop := mkDomain {
  dom_sleep : 0 <= sleep_hours i <= 12;
  dom_steps : (0 <= daily_steps i <= 30000)%Z;
  dom_diet : (1 <= diet_quality i <= 5)%Z;
  dom_social : (0 <= social_interaction i <= 20)%Z;
  dom_exfreq : (0 <= exercise_frequency i <= 7)%Z;
  dom_exdur : (0 <= exercise_duration i <= 180)%Z;
  dom_screen : 0 <= screen_time i <= 12;
  dom_stress : (1 <= stress_level i <= 10)%Z;
  dom_anxiety : (1 <= anxiety_level i <= 10)%Z;
  dom_depression : (1 <= depression_level i <= 10)%Z;
  dom_happy : (1 <= happiness_level i <= 10)%Z
}.

(** Two batches agree on the eleven scored features. *)
Definition same_features (i j : Inputs) : Prop :=
  sleep_hours i = sleep_hours j /\
  daily_steps i = daily_steps j /\
  exercise_frequency i = exercise_frequency j /\
  exercise_duration i = exercise_duration j /\
  diet_quality i = diet_quality j /\
  social_interaction i = social_interaction j /\
  happiness_level i = happiness_level j /\
  screen_time i = screen_time j /\
  stress_level i = stress_level j /\
  anxiety_level i = anxiety_level j /\
  depression_level i = depression_level j.

(* ------------------------------------------------------------------ *)
(** ** The weighted score (app.py, lines 81-109) *)

(** [s * FEATURE_WEIGHTS[key]]: the subscript is evaluated, then the
    product; a [None] score makes the product a [TypeError]. *)
Definition weighted (s : option Q) (key : string) : result Q :=
  w <- getitem FEATURE_WEIGHTS key ;;
  match s with
  | Some v => Ok (v * w)
  | None => Raise TypeError
  end.

Definition mhs_score (i : Inputs) : result Q :=
  (* Normalize inputs *)
  let s_sleep := normalize_sleep (sleep_hours i) in
  s_steps <- normalize_positive (inject_Z (daily_steps i)) 0 30000 ;;
  s_exfreq <- normalize_positive (inject_Z (exercise_frequency i)) 0 7 ;;
  s_exdur <- normalize_positive (inject_Z (exercise_duration i)) 0 180 ;;
  s_diet <- normalize_positive (inject_Z (diet_quality i)) 1 5 ;;
  s_social <- normalize_positive (inject_Z (social_interaction i)) 0 20 ;;
  s_happy <- normalize_positive (inject_Z (happiness_level i)) 1 10 ;;
  s_screen <- normalize_negative (screen_time i) 0 12 ;;
  s_stress <- normalize_negative (inject_Z (stress_level i)) 1 10 ;;
  s_anxiety <- normalize_negative (inject_Z (anxiety_level i)) 1 10 ;;
  s_depression <- normalize_negative (inject_Z (depression_level i)) 1 10 ;;
  (* Weighted score *)
  t_sleep <- weighted s_sleep "Sleep_Hours" ;;
  t_steps <- weighted (Some s_steps) "Daily_Steps" ;;
  t_exfreq <- weighted (Some s_exfreq) "Exercise_Frequency" ;;
  t_exdur <- weighted (Some s_exdur) "Exercise_Duration" ;;
  t_diet <- weighted (Some s_diet) "Diet_Quality" ;;
  t_social <- weighted (Some s_social) "Social_Interaction" ;;
  t_happy <- weighted (Some s_happy) "Happiness_Level" ;;
  t_screen <- weighted (Some s_screen) "Screen_Time_Hours" ;;
  t_stress <- weighted (Some s_stress) "Stress_Level" ;;
  t_anxiety <- weighted (Some s_anxiety) "Anxiety_Level" ;;
  t_depression <- weighted (Some s_depression) "Depression_Level" ;;
  let score_norm :=
    t_sleep + t_steps + t_exfreq + t_exdur + t_diet + t_social +
    t_happy + t_screen + t_stress + t_anxiety + t_depression in
  Ok (100 * score_norm).

(** The two batches of the specification's test vectors; the four
    unscored inputs are at the widgets' defaults. *)
Definition all_optimal : Inputs :=
  {| age := 25; gender := "Male"; occupation := "Student";
     sleep_hours := 8; daily_steps := 30000; diet_quality := 5;
     social_interaction := 20; exercise_frequency := 7;
     exercise_duration := 180; exercise_type := "Cardio";
     screen_time := 0; stress_level := 1; anxiety_level := 1;
     depression_level := 1; happiness_level := 10 |}.

Definition all_worst : Inputs :=
  {| age := 25; gender := "Male"; occupation := "Student";
     sleep_hours := 0; daily_steps := 0; diet_quality := 1;
     social_interaction := 0; exercise_frequency := 0;
     exercise_duration := 0; exercise_type := "Cardio";
     screen_time := 12; stress_level := 10; anxiety_level := 10;
     depression_level := 10; happiness_level := 1 |}.

(* ------------------------------------------------------------------ *)
(** ** What the page shows (app.py, lines 114-172) *)

(** The Streamlit calls of the handler, as a trace of events. *)
Inductive Output : Type :=
| Markdown (text : string)
| Subheader (score : Q)   (* the score line; the page prints two decimals *)
| Success (text : string)
| Info (text : string)
| Warning (text : string)
| Balloons.

Inductive Tier : Type := Favorable | Fair | Concerning.

(** The branch of the [if]/[elif]/[else] on [mhs_score]. *)
Definition tier (mhs_score : Q) : Tier :=
  if mhs_score >=? 75 then Favorable
  else if mhs_score >=? 50 then Fair
  else Concerning.

Definition show_tier (t : Tier) : list Output :=
  match t with
  | Favorable =>
      [Success "🌿 Excellent mental well-being! Keep nurturing your balance of rest, work, and joy.";
       Balloons]
  | Fair =>
      [Info "🙂 Fair well-being. A few lifestyle improvements can significantly lift your mood and energy."]
  | Concerning =>
      [Warning "⚠️ Your score suggests stress or fatigue. Consider gradual lifestyle adjustments and mindfulness habits."]
  end.

(** The eleven tips and the closing message, as the source spells them. *)
Definition tip_sleep_short :=
  "🌙 **Sleep:** Try to get 7–9 hours of sleep regularly to restore energy and focus.".
Definition tip_sleep_long :=
  "🛏️ **Sleep:** Oversleeping may affect alertness — aim for a consistent 7–9 hours.".
Definition tip_screen :=
  "📵 **Screen Time:** Reduce non-essential screen time below 5 hours/day to ease anxiety.".
Definition tip_exercise :=
  "🏃‍♂️ **Exercise:** Increase exercise frequency to at least 3–4 days per week.".
Definition tip_duration :=
  "⏱️ **Exercise Duration:** Aim for 30–60 minutes per session for maximum benefit.".
Definition tip_diet :=
  "🥗 **Diet:** Improve diet quality with whole foods, fruits, and lean proteins.".
Definition tip_stress :=
  "🧘‍♀️ **Stress:** Try meditation, yoga, or journaling to relax your mind.".
Definition tip_anxiety :=
  "💭 **Anxiety:** Practice deep-breathing or grounding exercises to stay calm.".
Definition tip_mood :=
  "💬 **Mood:** Engage in hobbies or connect with loved ones to improve mood.".
Definition tip_social :=
  "🤝 **Social Life:** Regularly interact with friends or join community groups.".
Definition tip_happiness :=
  "🌈 **Happiness:** Focus on gratitude, purpose, and activities that bring joy.".
Definition all_good :=
  "🎉 Great job! Your lifestyle already supports good mental health. Keep it up!".

(** [recommendations.append(tip)]. *)
Definition append (recommendations : list string) (tip : string) : list string :=
  (recommendations ++ [tip])%list.

(** The list the handler builds, statement by statement. *)
Definition recommendations (i : Inputs) : list string :=
  let recs := [] in
  (* Sleep advice *)
  let recs :=
    if sleep_hours i <? 7 then append recs tip_sleep_short
    else if sleep_hours i >? 9 then append recs tip_sleep_long
    else recs in
  (* Screen time *)
  let recs := if screen_time i >? 5 then append recs tip_screen else recs in
  (* Exercise *)
  let recs :=
    if (exercise_frequency i <? 3)%Z then append recs tip_exercise
    else if (exercise_duration i <? 30)%Z then append recs tip_duration
    else recs in
  (* Diet *)
  let recs := if (diet_quality i <? 3)%Z then append recs tip_diet else recs in
  (* Stress & Anxiety *)
  let recs := if (stress_level i >? 6)%Z then append recs tip_stress else recs in
  let recs := if (anxiety_level i >? 6)%Z then append recs tip_anxiety else recs in
  let recs := if (depression_level i >? 6)%Z then append recs tip_mood else recs in
  (* Social *)
  let recs := if (social_interaction i <? 3)%Z then append recs tip_social else recs in
  (* Happiness *)
  let recs := if (happiness_level i <? 5)%Z then append recs tip_happiness else recs in
  recs.

(** Display personalized tips: a bullet per tip, or the closing message
    when the list is empty. *)
Definition show_tips (recommendations : list string) : list Output :=
  match recommendations with
  | [] => [Success all_good]
  | _ :: _ => map (fun tip => Markdown ("- " ++ tip)%string) recommendations
  end.

(** The body of the button handler: everything shown after one click.
    The tier is taken on the exact score; see [show_page] and
    [Binary64.tier] for the branch on the rounded one. *)
Definition on_compute (i : Inputs) : result (list Output) :=
  score <- mhs_score i ;;
  Ok ([Markdown "---"; Subheader score]
      ++ show_tier (tier score)
      ++ [Markdown "### 💡 Personalized Recommendations"]
      ++ show_tips (recommendations i))%list.

(** Lines 114-172 on their own: what is shown once [mhs_score] holds
    the value [score], whatever that value is.  [on_compute] feeds it the
    exact score; the program feeds it the double it computed, which can
    differ from the exact score in the last bit. *)
Definition show_page (score : Q) (i : Inputs) : list Output :=
  ([Markdown "---"; Subheader score]
   ++ show_tier (tier score)
   ++ [Markdown "### 💡 Personalized Recommendations"]
   ++ show_tips (recommendations i))%list.

(* ------------------------------------------------------------------ *)
(** ** Python's two number types

    An [int] is unbounded; a [float] is a double, read as the rational it
    denotes.  [int - int] is exact.  [int / int] and every operation with
    a [float] operand produce a [float], and raise [OverflowError] when an
    integer operand, or the integer quotient, rounds to a magnitude of
    2^1024 or more. *)

Module Py.

Inductive num : Type :=
| Int (n : Z)
| Float (q : Q).

(** The magnitude from which rounding to a double overflows: half way
    between the largest double, 2^1024 - 2^971, and 2^1024. *)
Definition float_limit : Z := (2 ^ 1024 - 2 ^ 970)%Z.

(** The nearest double to an integer: 53 significant bits, ties to the
    even one.  Integers up to 2^53 in magnitude are doubles already. *)
Definition round53 (n : Z) : Z :=
  let m := Z.abs n in
  if (m <=? 2 ^ 53)%Z then n
  else
    let k := (Z.log2 m - 52)%Z in
    let q := Z.shiftr m k in
    let r := (m - Z.shiftl q k)%Z in
    let half := (2 ^ (k - 1))%Z in
    let q' :=
      if (r <? half)%Z then q
      else if (half <? r)%Z then (q + 1)%Z
      else if Z.even q then q else (q + 1)%Z in
    (Z.sgn n * Z.shiftl q' k)%Z.

(** The conversion of an operand to [float]. *)
Definition to_float (a : num) : result Q :=
  match a with
  | Float q => Ok q
  | Int n =>
      if (float_limit <=? Z.abs n)%Z then Raise OverflowError
      else Ok (inject_Z (round53 n))
  end.

(** [a - b]. *)
Definition sub (a b : num) : result num :=
  match a, b with
  | Int m, Int n => Ok (Int (m - n))
  | _, _ =>
      x <- to_float a ;;
      y <- to_float b ;;
      Ok (Float (x - y))
  end.

(** [a / b], always a [float]. *)
Definition truediv (a b : num) : result Q :=
  match a, b with
  | Int m, Int n =>
      if (n =? 0)%Z then Raise ZeroDivisionError
      else if (float_limit * Z.abs n <=? Z.abs m)%Z then Raise OverflowError
      else Ok (inject_Z m / inject_Z n)
  | _, _ =>
      x <- to_float a ;;
      y <- to_float b ;;
      if Qeq_bool y 0 then Raise ZeroDivisionError else Ok (x / y)
  end.

(** Positive contributor normalization: more = better. *)
Definition normalize_positive (x min_val max_val : num) : result Q :=
  a <- sub x min_val ;;
  b <- sub max_val min_val ;;
  t <- truediv a b ;;
  Ok (clip t 0 1).

(** Negative contributor normalization: more = worse. *)
Definition normalize_negative (x min_val max_val : num) : result Q :=
  a <- sub x min_val ;;
  b <- sub max_val min_val ;;
  t <- truediv a b ;;
  Ok (clip (1 - t) 0 1).

(** The score, with the types the widgets deliver: [int] from the integer
    sliders and number inputs, [float] from the two float sliders; the
    bounds are the integer literals of the source. *)
Definition mhs_score (i : Inputs) : result Q :=
  let s_sleep := normalize_sleep (sleep_hours i) in
  s_steps <- normalize_positive (Int (daily_steps i)) (Int 0) (Int 30000) ;;
  s_exfreq <- normalize_positive (Int (exercise_frequency i)) (Int 0) (Int 7) ;;
  s_exdur <- normalize_positive (Int (exercise_duration i)) (Int 0) (Int 180) ;;
  s_diet <- normalize_positive (Int (diet_quality i)) (Int 1) (Int 5) ;;
  s_social <- normalize_positive (Int (social_interaction i)) (Int 0) (Int 20) ;;
  s_happy <- normalize_positive (Int (happiness_level i)) (Int 1) (Int 10) ;;
  s_screen <- normalize_negative (Float (screen_time i)) (Int 0) (Int 12) ;;
  s_stress <- normalize_negative (Int (stress_level i)) (Int 1) (Int 10) ;;
  s_anxiety <- normalize_negative (Int (anxiety_level i)) (Int 1) (Int 10) ;;
  s_depression <-
    normalize_negative (Int (depression_level i)) (Int 1) (Int 10) ;;
  t_sleep <- weighted s_sleep "Sleep_Hours" ;;
  t_steps <- weighted (Some s_steps) "Daily_Steps" ;;
  t_exfreq <- weighted (Some s_exfreq) "Exercise_Frequency" ;;
  t_exdur <- weighted (Some s_exdur) "Exercise_Duration" ;;
  t_diet <- weighted (Some s_diet) "Diet_Quality" ;;
  t_social <- weighted (Some s_social) "Social_Interaction" ;;
  t_happy <- weighted (Some s_happy) "Happiness_Level" ;;
  t_screen <- weighted (Some s_screen) "Screen_Time_Hours" ;;
  t_stress <- weighted (Some s_stress) "Stress_Level" ;;
  t_anxiety <- weighted (Some s_anxiety) "Anxiety_Level" ;;
  t_depression <- weighted (Some s_depression) "Depression_Level" ;;
  let score_norm :=
    t_sleep + t_steps + t_exfreq + t_exdur + t_diet + t_social +
    t_happy + t_screen + t_stress + t_anxiety + t_depression in
  Ok (100 * score_norm).

Definition on_compute (i : Inputs) : result (list Output) :=
  score <- mhs_score i ;;
  Ok (show_page score i).



End Py.


(** A batch within the widgets' ranges whose exact score is 75. *)
Definition edge_of_favorable : Inputs :=
  {| age := 25; gender := "Male"; occupation := "Student";
     sleep_hours := 8; daily_steps := 30000; diet_quality := 5;
     social_interaction := 20; exercise_frequency := 0;
     exercise_duration := 90; exercise_type := "Cardio";
     screen_time := 0; stress_level := 4; anxiety_level := 4;
     depression_level := 10; happiness_level := 10 |}.

(* ------------------------------------------------------------------ *)
(** ** The rule engine as the specification words it

    A fixed, ordered table of threshold rules; the output is the advice of
    the rules that fire, in table order.  [spec_recommendations] is
    compared with [recommendations] below. *)

Inductive Category : Type :=
| CSleep | CScreen | CExercise | CDiet | CStress | CAnxiety
| CDepression | CSocial | CHappiness.

Record Rule : Type := mkRule {
  category : Category;
  fires : Inputs -> bool;
  advice : string
}.

Definition rule_exercise : Rule :=
  mkRule CExercise (fun i => (exercise_frequency i <? 3)%Z) tip_exercise.

Definition rule_duration : Rule :=
  mkRule CExercise
         (fun i => negb (exercise_frequency i <? 3)%Z
                   && (exercise_duration i <? 30)%Z)
         tip_duration.

Definition rule_table : list Rule :=
  [ mkRule CSleep (fun i => sleep_hours i <? 7) tip_sleep_short;
    mkRule CSleep (fun i => negb (sleep_hours i <? 7) && (sleep_hours i >? 9))
           tip_sleep_long;
    mkRule CScreen (fun i => screen_time i >? 5) tip_screen;
    rule_exercise;
    rule_duration;
    mkRule CDiet (fun i => (diet_quality i <? 3)%Z) tip_diet;
    mkRule CStress (fun i => (stress_level i >? 6)%Z) tip_stress;
    mkRule CAnxiety (fun i => (anxiety_level i >? 6)%Z) tip_anxiety;
    mkRule CDepression (fun i => (depression_level i >? 6)%Z) tip_mood;
    mkRule CSocial (fun i => (social_interaction i <? 3)%Z) tip_social;
    mkRule CHappiness (fun i => (happiness_level i <? 5)%Z) tip_happiness ].

Definition fired (i : Inputs) : list Rule :=
  filter (fun r => fires r i) rule_table.

Definition spec_recommendations (i : Inputs) : list string :=
  map advice (fired i).

(** The two batches of the specification's rule-engine test vectors.
    The second leaves the exercise duration open; it is set below 30 here,
    so that only the gate on frequency keeps the duration tip out. *)
Definition balanced : Inputs :=
  {| age := 25; gender := "Male"; occupation := "Student";
     sleep_hours := 7.5; daily_steps := 5000; diet_quality := 4;
     social_interaction := 5; exercise_frequency := 4;
     exercise_duration := 45; exercise_type := "Cardio";
     screen_time := 3; stress_level := 3; anxiety_level := 3;
     depression_level := 3; happiness_level := 7 |}.

Definition strained : Inputs :=
  {| age := 25; gender := "Male"; occupation := "Student";
     sleep_hours := 5; daily_steps := 5000; diet_quality := 2;
     social_interaction := 1; exercise_frequency := 1;
     exercise_duration := 10; exercise_type := "Cardio";
     screen_time := 6; stress_level := 8; anxiety_level := 7;
     depression_level := 8; happiness_level := 3 |}.

(** The piecewise definition of the sleep score, band by band. *)
Definition spec_sleep (x v : Q) : Prop :=
  (x < 4 \/ 12 < x -> v == 0) /\
  (4 <= x < 7 -> v == (x - 4) / 3) /\
  (7 <= x <= 9 -> v == 1) /\
  (9 < x <= 12 -> v == 1 - (x - 9) / 3).

(** [no_worse i j]: batch [j] is at least as favourable as batch [i] in
    every scored feature.  For sleep, [j] is the one nearer the 7..9
    plateau on the same side of it. *)
Record no_worse (i j : Inputs) : Prop := mkNoWorse {
  nw_sleep : sleep_hours i <= sleep_hours j <= 9 \/
             7 <= sleep_hours j <= sleep_hours i;
  nw_steps : (daily_steps i <= daily_steps j)%Z;
  nw_exfreq : (exercise_frequency i <= exercise_frequency j)%Z;
  nw_exdur : (exercise_duration i <= exercise_duration j)%Z;
  nw_diet : (diet_quality i <= diet_quality j)%Z;
  nw_social : (social_interaction i <= social_interaction j)%Z;
  nw_happy : (happiness_level i <= happiness_level j)%Z;
  nw_screen : screen_time j <= screen_time i;
  nw_stress : (stress_level j <= stress_level i)%Z;
  nw_anxiety : (anxiety_level j <= anxiety_level i)%Z;
  nw_depression : (depression_level j <= depression_level i)%Z
}.

(** The batch that sits on every threshold of the rule engine without
    crossing it, and walks no steps. *)
Definition quiet_minimum : Inputs :=
  {| age := 25; gender := "Male"; occupation := "Student";
     sleep_hours := 8; daily_steps := 0; diet_quality := 3;
     social_interaction := 3; exercise_frequency := 3;
     exercise_duration := 30; exercise_type := "Cardio";
     screen_time := 5; stress_level := 6; anxiety_level := 6;
     depression_level := 6; happiness_level := 5 |}.

(** [o ~~> q]: the call returned a number, equal to [q]. *)
Definition yields (o : option Q) (q : Q) : Prop :=
  exists v, o = Some v /\ v == q.

Notation "o ~~> q" := (yields o q) (at level 70, no associativity).

Local Close Scope string_scope.

(* ------------------------------------------------------------------ *)
(** ** The same arithmetic in binary64

    The score path once more, on the machine's double-precision floats
    with their rounding, to evaluate the test vectors exactly as the
    interpreter does.  An integer widget value enters as the float it
    converts to. *)

Module Binary64.

Local Open Scope string_scope.
Local Open Scope float_scope.
Set Warnings "-inexact-float".

Definition py_div (a b : float) : option float :=
  if (b =? 0)%float then None else Some (a / b)%float.

Definition clip (a a_min a_max : float) : float :=
  let m := if (a <? a_min)%float then a_min else a in
  if (a_max <? m)%float then a_max else m.

Definition normalize_positive (x min_val max_val : float) : option float :=
  match py_div (x - min_val) (max_val - min_val) with
  | Some t => Some (clip t 0 1)
  | None => None
  end.

Definition normalize_negative (x min_val max_val : float) : option float :=
  match py_div (x - min_val) (max_val - min_val) with
  | Some t => Some (clip (1 - t) 0 1)
  | None => None
  end.

Definition normalize_sleep (x : float) : option float :=
  if ((x <? 4) || (12 <? x))%float then Some 0
  else if ((4 <=? x) && (x <? 7))%float then Some ((x - 4) / 3)
  else if ((7 <=? x) && (x <=? 9))%float then Some 1
  else if ((9 <? x) && (x <=? 12))%float then Some (1 - (x - 9) / 3)
  else None.

Definition FEATURE_WEIGHTS : list (string * float) :=
  [ ("Sleep_Hours", 0.1);
    ("Daily_Steps", 0.1);
    ("Exercise_Frequency", 0.1);
    ("Exercise_Duration", 0.1);
    ("Diet_Quality", 0.1);
    ("Social_Interaction", 0.1);
    ("Happiness_Level", 0.1);
    ("Screen_Time_Hours", 0.1);
    ("Stress_Level", 0.1);
    ("Anxiety_Level", 0.05);
    ("Depression_Level", 0.05) ].

Fixpoint getitem (d : list (string * float)) (key : string) : option float :=
  match d with
  | [] => None
  | (k, v) :: d' => if String.eqb k key then Some v else getitem d' key
  end.

(** Python's [sum]: a left fold from [0]. *)
Definition sum (l : list float) : float :=
  fold_left (fun acc x => acc + x) l 0.

Definition weighted (s : option float) (key : string) : option float :=
  match getitem FEATURE_WEIGHTS key, s with
  | Some w, Some v => Some (v * w)
  | _, _ => None
  end.

(** The eleven scored features of a batch. *)
Record Features : Type := mkFeatures {
  sleep_hours : float;
  daily_steps : float;
  exercise_frequency : float;
  exercise_duration : float;
  diet_quality : float;
  social_interaction : float;
  happiness_level : float;
  screen_time : float;
  stress_level : float;
  anxiety_level : float;
  depression_level : float
}.

Definition add_terms (ts : list (option float)) : option float :=
  match ts with
  | [] => None
  | t :: ts' =>
      fold_left
        (fun acc t =>
           match acc, t with
           | Some a, Some b => Some (a + b)
           | _, _ => None
           end)
        ts' t
  end.

Definition mhs_score (i : Features) : option float :=
  let s_sleep := normalize_sleep (sleep_hours i) in
  let s_steps := normalize_positive (daily_steps i) 0 30000 in
  let s_exfreq := normalize_positive (exercise_frequency i) 0 7 in
  let s_exdur := normalize_positive (exercise_duration i) 0 180 in
  let s_diet := normalize_positive (diet_quality i) 1 5 in
  let s_social := normalize_positive (social_interaction i) 0 20 in
  let s_happy := normalize_positive (happiness_level i) 1 10 in
  let s_screen := normalize_negative (screen_time i) 0 12 in
  let s_stress := normalize_negative (stress_level i) 1 10 in
  let s_anxiety := normalize_negative (anxiety_level i) 1 10 in
  let s_depression := normalize_negative (depression_level i) 1 10 in
  match
    add_terms
      [ weighted s_sleep "Sleep_Hours";
        weighted s_steps "Daily_Steps";
        weighted s_exfreq "Exercise_Frequency";
        weighted s_exdur "Exercise_Duration";
        weighted s_diet "Diet_Quality";
        weighted s_social "Social_Interaction";
        weighted s_happy "Happiness_Level";
        weighted s_screen "Screen_Time_Hours";
        weighted s_stress "Stress_Level";
        weighted s_anxiety "Anxiety_Level";
        weighted s_depression "Depression_Level" ]
  with
  | Some score_norm => Some (100 * score_norm)
  | None => None
  end.

Definition all_optimal : Features :=
  mkFeatures 8 30000 7 180 5 20 10 0 1 1 1.

Definition all_worst : Features :=
  mkFeatures 0 0 0 0 1 0 1 12 10 10 10.

(** The batch [edge_of_favorable] as doubles. *)
Definition edge_of_favorable : Features :=
  mkFeatures 8 30000 0 90 5 20 10 0 4 4 10.

(** The branch of the [if]/[elif]/[else] on the double. *)
Definition tier (mhs_score : float) : Tier :=
  if (75 <=? mhs_score)%float then Favorable
  else if (50 <=? mhs_score)%float then Fair
  else Concerning.

(** The sleep test vectors: argument and expected score. *)
Definition sleep_vectors : list (float * float) :=
  [ (4, 0); (7, 1); (9, 1); (12, 0); (3.9, 0); (12.1, 0); (5.5, 0.5) ].

Set Warnings "+inexact-float".

End Binary64.

(* ------------------------------------------------------------------ *)
(** ** Reflection of the comparisons *)

Lemma Qltb_true (x y : Q) : (x <? y) = true <-> x < y.
Proof.
  unfold Qltb. rewrite negb_true_iff. split.
  - intros H. apply Qnot_le_lt. intros Hle.
    apply Qle_bool_iff in Hle. congruence.
  - intros H. destruct (Qle_bool y x) eqn:E; [|reflexivity].
    apply Qle_bool_iff in E. lra.
Qed.

Lemma Qltb_false (x y : Q) : (x <? y) = false <-> y <= x.
Proof.
  unfold Qltb. rewrite negb_false_iff. apply Qle_bool_iff.
Qed.

Lemma Qleb_true (x y : Q) : (x <=? y) = true <-> x <= y.
Proof. apply Qle_bool_iff. Qed.

Lemma Qleb_false (x y : Q) : (x <=? y) = false <-> y < x.
Proof.
  unfold Qleb. split.
  - intros H. apply Qnot_le_lt. intros Hle.
    apply Qle_bool_iff in Hle. congruence.
  - intros H. destruct (Qle_bool x y) eqn:E; [|reflexivity].
    apply Qle_bool_iff in E. lra.
Qed.

(** Turn every boolean comparison in the context into its proposition. *)
Ltac reflect_cmp :=
  repeat match goal with
  | H : (_ || _)%bool = true |- _ => apply orb_true_iff in H
  | H : (_ || _)%bool = false |- _ => apply orb_false_iff in H; destruct H
  | H : (_ && _)%bool = true |- _ => apply andb_true_iff in H; destruct H
  | H : (_ && _)%bool = false |- _ => apply andb_false_iff in H
  | H : (_ <? _) = true |- _ => apply Qltb_true in H
  | H : (_ <? _) = false |- _ => apply Qltb_false in H
  | H : (_ <=? _) = true |- _ => apply Qleb_true in H
  | H : (_ <=? _) = false |- _ => apply Qleb_false in H
  | H : _ \/ _ |- _ => destruct H
  end.

(* ------------------------------------------------------------------ *)
(** ** Clipping *)

Lemma clip_unit_range (a : Q) : 0 <= clip a 0 1 <= 1.
Proof.
  unfold clip. split.
  - apply Q.min_glb; [apply Q.le_max_r | lra].
  - apply Q.le_min_r.
Qed.

Lemma clip_cases (a : Q) :
  (a <= 0 /\ clip a 0 1 == 0) \/
  (0 <= a <= 1 /\ clip a 0 1 == a) \/
  (1 <= a /\ clip a 0 1 == 1).
Proof.
  unfold clip.
  destruct (Q.max_spec a 0) as [[Hlt Hm] | [Hle Hm]];
    destruct (Q.min_spec (Qmax a 0) 1) as [[Hlt' Hn] | [Hle' Hn]];
    rewrite Hn; rewrite Hm in *.
  - left. split; lra.
  - lra.
  - right; left. split; lra.
  - right; right. split; lra.
Qed.

Lemma clip_complement (t : Q) : clip t 0 1 + clip (1 - t) 0 1 == 1.
Proof.
  destruct (clip_cases t) as [[H1 E1] | [[H1 E1] | [H1 E1]]];
    destruct (clip_cases (1 - t)) as [[H2 E2] | [[H2 E2] | [H2 E2]]];
    rewrite E1, E2; lra.
Qed.

Lemma py_div_ok (a b : Q) : ~ b == 0 -> py_div a b = Ok (a / b).
Proof.
  intros Hb. unfold py_div.
  destruct (Qeq_bool b 0) eqn:E; [|reflexivity].
  apply Qeq_bool_iff in E. contradiction.
Qed.

Lemma normalize_positive_eq (x min_val max_val : Q) :
  min_val < max_val ->
  normalize_positive x min_val max_val =
  Ok (clip ((x - min_val) / (max_val - min_val)) 0 1).
Proof.
  intros H. unfold normalize_positive.
  rewrite py_div_ok by lra. reflexivity.
Qed.

Lemma normalize_negative_eq (x min_val max_val : Q) :
  min_val < max_val ->
  normalize_negative x min_val max_val =
  Ok (clip (1 - (x - min_val) / (max_val - min_val)) 0 1).
Proof.
  intros H. unfold normalize_negative.
  rewrite py_div_ok by lra. reflexivity.
Qed.

(* ------------------------------------------------------------------ *)
(** ** The sleep score *)

Lemma normalize_sleep_total (x : Q) :
  exists v, normalize_sleep x = Some v /\ spec_sleep x v /\ 0 <= v <= 1.
Proof.
  assert (E4 : (x - 4) / 3 == (x - 4) * (1 # 3)) by field.
  assert (E9 : (x - 9) / 3 == (x - 9) * (1 # 3)) by field.
  unfold normalize_sleep, spec_sleep.
  set (up := (x - 4) / 3) in *. set (down := (x - 9) / 3) in *.
  clearbody up down.
  destruct ((x <? 4) || (x >? 12))%bool eqn:B1.
  { exists 0. reflect_cmp; repeat split; intros; (reflexivity || lra). }
  destruct ((4 <=? x) && (x <? 7))%bool eqn:B2.
  { exists up. reflect_cmp; repeat split; intros; (reflexivity || lra). }
  destruct ((7 <=? x) && (x <=? 9))%bool eqn:B3.
  { exists 1. reflect_cmp; repeat split; intros; (reflexivity || lra). }
  destruct ((9 <? x) && (x <=? 12))%bool eqn:B4.
  { exists (1 - down). reflect_cmp; repeat split; intros; (reflexivity || lra). }
  exfalso. reflect_cmp; lra.
Qed.

(* ------------------------------------------------------------------ *)
(** ** The weight table *)

Lemma getitem_weights :
  getitem FEATURE_WEIGHTS "Sleep_Hours" = Ok 0.1 /\
  getitem FEATURE_WEIGHTS "Daily_Steps" = Ok 0.1 /\
  getitem FEATURE_WEIGHTS "Exercise_Frequency" = Ok 0.1 /\
  getitem FEATURE_WEIGHTS "Exercise_Duration" = Ok 0.1 /\
  getitem FEATURE_WEIGHTS "Diet_Quality" = Ok 0.1 /\
  getitem FEATURE_WEIGHTS "Social_Interaction" = Ok 0.1 /\
  getitem FEATURE_WEIGHTS "Happiness_Level" = Ok 0.1 /\
  getitem FEATURE_WEIGHTS "Screen_Time_Hours" = Ok 0.1 /\
  getitem FEATURE_WEIGHTS "Stress_Level" = Ok 0.1 /\
  getitem FEATURE_WEIGHTS "Anxiety_Level" = Ok 0.05 /\
  getitem FEATURE_WEIGHTS "Depression_Level" = Ok 0.05.
Proof. repeat split; reflexivity. Qed.

(* ------------------------------------------------------------------ *)
(** ** The weighted score *)

(** Name every clipped score in the goal and record that it is in [0,1]. *)
Ltac bound_clips :=
  repeat match goal with
  | |- context [clip ?a 0 1] =>
      let c := fresh "c" in
      let Hc := fresh "Hc" in
      pose proof (clip_unit_range a) as Hc;
      set (c := clip a 0 1) in *; clearbody c
  end.

Lemma mhs_score_range (i : Inputs) :
  exists s, mhs_score i = Ok s /\ 0 <= s <= 100.
Proof.
  unfold mhs_score.
  destruct (normalize_sleep_total (sleep_hours i)) as (v & -> & _ & Hv).
  rewrite !normalize_positive_eq, !normalize_negative_eq by reflexivity.
  unfold weighted.
  destruct getitem_weights
    as (-> & -> & -> & -> & -> & -> & -> & -> & -> & -> & ->).
  cbn [bind]. eexists. split; [reflexivity|].
  bound_clips. lra.
Qed.

Lemma in_domain_all_optimal : in_domain all_optimal.
Proof. constructor; cbn; (lra || lia). Qed.

Lemma in_domain_all_worst : in_domain all_worst.
Proof. constructor; cbn; (lra || lia). Qed.

(* ------------------------------------------------------------------ *)
(** ** The rule engine *)

Section RuleTable.

Variable i : Inputs.

Lemma advice_fired_subset (l : list Rule) (t : string) :
  In t (map advice (filter (fun r => fires r i) l)) -> In t (map advice l).
Proof.
  rewrite !in_map_iff. intros (r & E & Hr).
  apply filter_In in Hr. exists r. tauto.
Qed.

(** In a table without repeated advice, the advice of a rule occurs once
    in the output if the rule fires and not at all otherwise. *)
Lemma count_advice (l : list Rule) (r : Rule) :
  NoDup (map advice l) -> In r l ->
  count_occ string_dec (map advice (filter (fun r => fires r i) l))
            (advice r) =
  if fires r i then 1%nat else 0%nat.
Proof.
  induction l as [|a l IH]; intros ND Hin; [destruct Hin|].
  cbn [map] in ND. apply NoDup_cons_iff in ND. destruct ND as [Ha ND].
  destruct Hin as [-> | Hin].
  - cbn [filter]. destruct (fires r i) eqn:F; cbn [map].
    + rewrite count_occ_cons_eq by reflexivity. f_equal.
      apply count_occ_not_In. intros Hc. apply Ha.
      apply advice_fired_subset, Hc.
    + apply count_occ_not_In. intros Hc. apply Ha.
      apply advice_fired_subset, Hc.
  - assert (Hne : advice a <> advice r).
    { intros E. apply Ha. rewrite E. apply in_map, Hin. }
    cbn [filter]. destruct (fires a i); cbn [map].
    + rewrite count_occ_cons_neq by exact Hne. apply IH; assumption.
    + apply IH; assumption.
Qed.

(** Firing selects from the table; it cannot repeat a tip. *)
Lemma advice_fired_NoDup (l : list Rule) :
  NoDup (map advice l) ->
  NoDup (map advice (filter (fun r => fires r i) l)).
Proof.
  induction l as [|a l IH]; cbn [map filter]; intros ND; [exact ND|].
  apply NoDup_cons_iff in ND. destruct ND as [Ha ND].
  destruct (fires a i); [|exact (IH ND)].
  cbn [map]. apply NoDup_cons; [|exact (IH ND)].
  intros Hc. apply Ha. apply advice_fired_subset, Hc.
Qed.

End RuleTable.

Lemma advice_distinct : NoDup (map advice rule_table).
Proof.
  unfold rule_table, rule_exercise, rule_duration. cbn [map advice].
  repeat (apply NoDup_cons; [cbn [In]; intuition discriminate|]).
  apply NoDup_nil.
Qed.

(** One [if ...: recommendations.append(tip)] statement, and one
    [if]/[elif] pair of them, as the segment they add to the list. *)
Lemma if_append (b : bool) (recs : list string) (tip : string) :
  (if b then append recs tip else recs) = recs ++ (if b then [tip] else []).
Proof. destruct b; [reflexivity | symmetry; apply app_nil_r]. Qed.

Lemma if_elif_append (b1 b2 : bool) (recs : list string) (t1 t2 : string) :
  (if b1 then append recs t1 else if b2 then append recs t2 else recs) =
  (recs ++ (if b1 then [t1] else [])) ++ (if negb b1 && b2 then [t2] else []).
Proof.
  destruct b1, b2; cbn [negb andb]; unfold append;
    rewrite ?app_nil_r; reflexivity.
Qed.

Lemma advice_filter_cons (f : Rule -> bool) (r : Rule) (l : list Rule) :
  map advice (filter f (r :: l)) =
  (if f r then [advice r] else []) ++ map advice (filter f l).
Proof. cbn [filter]. destruct (f r); reflexivity. Qed.

(** The list the handler builds is the advice of the rules that fire. *)
Lemma recommendations_spec (i : Inputs) :
  recommendations i = spec_recommendations i.
Proof.
  unfold recommendations, spec_recommendations, fired, rule_table.
  unfold rule_exercise, rule_duration. cbv zeta.
  rewrite !if_elif_append, !if_append.
  rewrite !advice_filter_cons. cbn [filter map fires advice].
  rewrite <- !app_assoc, app_nil_r. reflexivity.
Qed.

Section Categories.

Variable i : Inputs.

(** A rule whose category no later firing rule shares keeps the
    categories of the fired rules distinct. *)
Lemma categories_cons (r : Rule) (l : list Rule) :
  (fires r i = true ->
   forall r', In r' l -> fires r' i = true -> category r' <> category r) ->
  NoDup (map category (filter (fun r => fires r i) l)) ->
  NoDup (map category (filter (fun r => fires r i) (r :: l))).
Proof.
  intros Hfresh ND. cbn [filter].
  destruct (fires r i) eqn:F; [|exact ND].
  cbn [map]. apply NoDup_cons; [|exact ND].
  rewrite in_map_iff. intros (r' & E & Hr').
  apply filter_In in Hr'. destruct Hr' as [Hin Hf].
  exact (Hfresh eq_refl r' Hin Hf E).
Qed.

Lemma categories_distinct : NoDup (map category (fired i)).
Proof.
  unfold fired, rule_table, rule_exercise, rule_duration.
  repeat (apply categories_cons;
          [ cbn [fires category In]; intros F r' Hin F';
            repeat (destruct Hin as [<- | Hin]; [cbn in F' |- * |]);
            try discriminate; try contradiction;
            rewrite F in F'; discriminate
          | ]).
  apply NoDup_nil.
Qed.

End Categories.

Lemma rule_exercise_in_table : In rule_exercise rule_table.
Proof. unfold rule_table. do 3 right. left. reflexivity. Qed.

Lemma rule_duration_in_table : In rule_duration rule_table.
Proof. unfold rule_table. do 4 right. left. reflexivity. Qed.

Lemma tip_in_recommendations (i : Inputs) (r : Rule) :
  In r rule_table ->
  (In (advice r) (recommendations i) <-> fires r i = true).
Proof.
  intros Hr. rewrite recommendations_spec.
  rewrite (count_occ_In string_dec).
  unfold spec_recommendations, fired.
  rewrite (count_advice i rule_table r advice_distinct Hr).
  destruct (fires r i); split; intros; (lia || discriminate || reflexivity).
Qed.

(* ------------------------------------------------------------------ *)
(** ** Claims *)

(** C3.  [FEATURE_WEIGHTS] binds exactly the eleven feature names, each
    once; its eleven weights add up to 1 (as rationals, and also when
    added in binary64 in table order) and each weight lies in [0,1]. *)
Theorem C3_feature_weights_sum_to_one :
  keys FEATURE_WEIGHTS =
    [ "Sleep_Hours"; "Daily_Steps"; "Exercise_Frequency"; "Exercise_Duration";
      "Diet_Quality"; "Social_Interaction"; "Happiness_Level";
      "Screen_Time_Hours"; "Stress_Level"; "Anxiety_Level";
      "Depression_Level" ]%string /\
  Qsum (values FEATURE_WEIGHTS) == 1 /\
  Forall (fun w => 0 <= w <= 1) (values FEATURE_WEIGHTS) /\
  Binary64.sum (map snd Binary64.FEATURE_WEIGHTS) = 1%float.
Proof.
  split; [reflexivity|]. split; [reflexivity|]. split.
  - unfold values, FEATURE_WEIGHTS; simpl.
    repeat (constructor; [lra|]). constructor.
  - vm_compute. reflexivity.
Qed.

(** C8.  With [min_val < max_val]: [normalize_positive] is 0 at [min_val]
    and 1 at [max_val]; [normalize_negative] is 1 at [min_val] and 0 at
    [max_val]. *)
Theorem C8_normalizers_at_endpoints (min_val max_val : Q) :
  min_val < max_val ->
  normalize_positive min_val min_val max_val ~> 0 /\
  normalize_positive max_val min_val max_val ~> 1 /\
  normalize_negative min_val min_val max_val ~> 1 /\
  normalize_negative max_val min_val max_val ~> 0.
Proof.
  intros H.
  assert (E0 : (min_val - min_val) / (max_val - min_val) == 0)
    by (field; lra).
  assert (E1 : (max_val - min_val) / (max_val - min_val) == 1)
    by (field; lra).
  unfold returns. repeat split; eexists.
  - split; [apply normalize_positive_eq, H|].
    destruct (clip_cases ((min_val - min_val) / (max_val - min_val)))
      as [[? ->] | [[? ->] | [? ->]]]; lra.
  - split; [apply normalize_positive_eq, H|].
    destruct (clip_cases ((max_val - min_val) / (max_val - min_val)))
      as [[? ->] | [[? ->] | [? ->]]]; lra.
  - split; [apply normalize_negative_eq, H|].
    destruct (clip_cases (1 - (min_val - min_val) / (max_val - min_val)))
      as [[? ->] | [[? ->] | [? ->]]]; lra.
  - split; [apply normalize_negative_eq, H|].
    destruct (clip_cases (1 - (max_val - min_val) / (max_val - min_val)))
      as [[? ->] | [[? ->] | [? ->]]]; lra.
Qed.

Lemma C8_witness :
  1 < 10 /\
  normalize_positive 1 1 10 ~> 0 /\
  normalize_positive 10 1 10 ~> 1 /\
  normalize_negative 1 1 10 ~> 1 /\
  normalize_negative 10 1 10 ~> 0.
Proof.
  split; [reflexivity|].
  apply (C8_normalizers_at_endpoints 1 10). reflexivity.
Defined.

(** C9.  With [min_val < max_val], for every [x] both normalisers return
    and the two values add up to 1. *)
Theorem C9_normalizers_are_complements (x min_val max_val : Q) :
  min_val < max_val ->
  exists p n,
    normalize_positive x min_val max_val = Ok p /\
    normalize_negative x min_val max_val = Ok n /\
    p + n == 1.
Proof.
  intros H. do 2 eexists. split; [|split].
  - apply normalize_positive_eq, H.
  - apply normalize_negative_eq, H.
  - apply clip_complement.
Qed.

Lemma C9_witness :
  0 < 12 /\
  exists p n,
    normalize_positive (-5) 0 12 = Ok p /\
    normalize_negative (-5) 0 12 = Ok n /\
    p + n == 1.
Proof.
  split; [reflexivity|].
  apply (C9_normalizers_are_complements (-5) 0 12). reflexivity.
Defined.

(** C2.  [normalize_sleep] returns a number for every [x] (it never falls
    off the end of its [elif] chain), and that number is the one the
    piecewise definition gives, boundaries included; the seven quoted
    values hold, in exact arithmetic and in binary64. *)
Theorem C2_normalize_sleep_piecewise :
  (forall x : Q, exists v, normalize_sleep x = Some v /\ spec_sleep x v) /\
  normalize_sleep 4 ~~> 0 /\
  normalize_sleep 7 ~~> 1 /\
  normalize_sleep 9 ~~> 1 /\
  normalize_sleep 12 ~~> 0 /\
  normalize_sleep 3.9 ~~> 0 /\
  normalize_sleep 12.1 ~~> 0 /\
  normalize_sleep 5.5 ~~> 0.5 /\
  Forall (fun xy => Binary64.normalize_sleep (fst xy) = Some (snd xy))
         Binary64.sleep_vectors.
Proof.
  split.
  - intros x. destruct (normalize_sleep_total x) as (v & E & S & _).
    exists v. split; assumption.
  - unfold yields.
    repeat (split; [eexists; (split; [reflexivity|]); reflexivity|]).
    repeat (constructor; [vm_compute; reflexivity|]). constructor.
Qed.

Lemma C2_witness :
  exists v, normalize_sleep 10.5 = Some v /\ spec_sleep 10.5 v /\ v == 0.5.
Proof.
  destruct (proj1 C2_normalize_sleep_piecewise 10.5) as (v & E & S).
  exists v. split; [exact E|]. split; [exact S|].
  destruct S as (_ & _ & _ & S4). rewrite S4; [reflexivity | lra].
Defined.

(** C1.  For every batch whose eleven features are within the widgets'
    ranges, [mhs_score] returns a score in [0,100]; the all-optimal batch
    scores exactly 100 and the all-worst batch exactly 0 (both batches are
    in range, and binary64 evaluation gives 100.0 and 0.0 too). *)
Theorem C1_score_bounded_and_extremes :
  (forall i : Inputs, in_domain i ->
     exists s, mhs_score i = Ok s /\ 0 <= s <= 100) /\
  (in_domain all_optimal /\ mhs_score all_optimal ~> 100) /\
  (in_domain all_worst /\ mhs_score all_worst ~> 0) /\
  Binary64.mhs_score Binary64.all_optimal = Some 100%float /\
  Binary64.mhs_score Binary64.all_worst = Some 0%float.
Proof.
  split; [intros i _; apply mhs_score_range|].
  split; [split; [apply in_domain_all_optimal|]|].
  { eexists. split; [vm_compute; reflexivity | reflexivity]. }
  split; [split; [apply in_domain_all_worst|]|].
  { eexists. split; [vm_compute; reflexivity | reflexivity]. }
  split; vm_compute; reflexivity.
Qed.

Lemma C1_witness :
  in_domain all_worst /\
  exists s, mhs_score all_worst = Ok s /\ 0 <= s <= 100.
Proof.
  split; [apply in_domain_all_worst|].
  apply (proj1 C1_score_bounded_and_extremes all_worst).
  constructor; cbn; (lra || lia).
Defined.

(** C6.  The three tiers partition the scores: a score is favorable
    exactly when it is at least 75, fair exactly when it is at least 50 and
    below 75, concerning exactly when it is below 50; so every score has
    one tier and only one. *)
Theorem C6_tier_bands (s : Q) :
  (75 <= s <-> tier s = Favorable) /\
  (50 <= s < 75 <-> tier s = Fair) /\
  (s < 50 <-> tier s = Concerning) /\
  exists t, tier s = t /\ forall t', tier s = t' -> t' = t.
Proof.
  unfold tier.
  destruct (s >=? 75) eqn:B1; [|destruct (s >=? 50) eqn:B2];
    reflect_cmp;
    (repeat split; [..| eexists; split; [reflexivity | intros; congruence]]);
    intros; try discriminate; try reflexivity; lra.
Qed.

Lemma C6_witness :
  tier 75 = Favorable /\ tier 74.99 = Fair /\ tier 50 = Fair /\
  tier 49.99 = Concerning.
Proof.
  split; [|split; [|split]].
  - apply (proj1 (C6_tier_bands 75)). lra.
  - apply (proj1 (proj2 (C6_tier_bands 74.99))). lra.
  - apply (proj1 (proj2 (C6_tier_bands 50))). lra.
  - apply (proj1 (proj2 (proj2 (C6_tier_bands 49.99)))). lra.
Defined.

(** C4.  The list built by the handler is the advice of the rules of the
    fixed table that fire, in table order: sleep (<7, else >9), screen
    time (>5), exercise (frequency <3, else duration <30), diet (<3),
    stress (>6), anxiety (>6), depression (>6), social interaction (<3),
    happiness (<5).  A rule that fires contributes its tip once and a rule
    that does not contributes nothing; no category and no tip occurs
    twice.  When no rule fires the page shows the single closing message,
    otherwise one bullet per tip. *)
Theorem C4_rule_engine (i : Inputs) :
  recommendations i = spec_recommendations i /\
  (forall r, In r rule_table ->
     count_occ string_dec (recommendations i) (advice r) =
     if fires r i then 1%nat else 0%nat) /\
  NoDup (map category (fired i)) /\
  NoDup (recommendations i) /\
  (fired i = [] -> show_tips (recommendations i) = [Success all_good]) /\
  (fired i <> [] ->
     recommendations i <> [] /\
     show_tips (recommendations i) =
     map (fun tip => Markdown ("- " ++ tip)%string) (recommendations i)).
Proof.
  split; [apply recommendations_spec|].
  split.
  { intros r Hr. rewrite recommendations_spec.
    apply (count_advice i rule_table r advice_distinct Hr). }
  split; [apply categories_distinct|].
  split.
  { rewrite recommendations_spec. apply advice_fired_NoDup, advice_distinct. }
  rewrite recommendations_spec. unfold spec_recommendations.
  split.
  - intros ->. reflexivity.
  - intros Hne. destruct (fired i) as [|r l]; [contradiction|].
    split; [discriminate | reflexivity].
Qed.

Lemma C4_witness :
  recommendations balanced = [] /\
  show_tips (recommendations balanced) = [Success all_good] /\
  recommendations strained =
    [ tip_sleep_short; tip_screen; tip_exercise; tip_diet; tip_stress;
      tip_anxiety; tip_mood; tip_social; tip_happiness ] /\
  show_tips (recommendations strained) =
    map (fun tip => Markdown ("- " ++ tip)%string) (recommendations strained).
Proof.
  split; [reflexivity|]. split.
  - apply (proj1 (proj2 (proj2 (proj2 (proj2 (C4_rule_engine balanced)))))).
    reflexivity.
  - split; [reflexivity|].
    apply (proj2 (proj2 (proj2 (proj2 (proj2 (C4_rule_engine strained)))))).
    discriminate.
Defined.

(** C5.  The duration tip is in the list exactly when the frequency is
    at least 3 and the duration below 30, the frequency tip exactly when
    the frequency is below 3; so the duration tip never appears together
    with the frequency tip. *)
Theorem C5_exercise_tips_exclusive (i : Inputs) :
  (In tip_exercise (recommendations i) ->
   ~ In tip_duration (recommendations i)) /\
  (In tip_exercise (recommendations i) <-> (exercise_frequency i < 3)%Z) /\
  (In tip_duration (recommendations i) <->
   (3 <= exercise_frequency i)%Z /\ (exercise_duration i < 30)%Z).
Proof.
  pose proof (tip_in_recommendations i _ rule_exercise_in_table) as He.
  pose proof (tip_in_recommendations i _ rule_duration_in_table) as Hd.
  unfold rule_exercise in He. unfold rule_duration in Hd.
  cbn [advice fires] in He, Hd.
  rewrite He, Hd, andb_true_iff, negb_true_iff, Z.ltb_lt, Z.ltb_ge, Z.ltb_lt.
  repeat split; intros; lia.
Qed.

Lemma C5_witness :
  (exercise_duration strained < 30)%Z /\
  In tip_exercise (recommendations strained) /\
  ~ In tip_duration (recommendations strained).
Proof.
  split; [reflexivity|].
  assert (H : In tip_exercise (recommendations strained)).
  { cbn. tauto. }
  split; [exact H|].
  exact (proj1 (C5_exercise_tips_exclusive strained) H).
Defined.

(** C10.  Age, gender, occupation and exercise type do not reach the
    outputs: two batches that agree on the eleven scored features have the
    same score, the same recommendation list, and the same page. *)
Theorem C10_unscored_inputs_do_not_interfere (i j : Inputs) :
  same_features i j ->
  mhs_score i = mhs_score j /\
  recommendations i = recommendations j /\
  on_compute i = on_compute j.
Proof.
  intros (H1 & H2 & H3 & H4 & H5 & H6 & H7 & H8 & H9 & H10 & H11).
  assert (Hs : mhs_score i = mhs_score j).
  { unfold mhs_score.
    rewrite H1, H2, H3, H4, H5, H6, H7, H8, H9, H10, H11. reflexivity. }
  assert (Hr : recommendations i = recommendations j).
  { unfold recommendations.
    rewrite H1, H3, H4, H5, H6, H7, H8, H9, H10, H11. reflexivity. }
  repeat split; try assumption.
  unfold on_compute. rewrite Hs, Hr. reflexivity.
Qed.

Lemma C10_witness :
  let other :=
    {| age := 71; gender := "Other"; occupation := "Working Professional";
       sleep_hours := 5; daily_steps := 5000; diet_quality := 2;
       social_interaction := 1; exercise_frequency := 1;
       exercise_duration := 10; exercise_type := "Yoga";
       screen_time := 6; stress_level := 8; anxiety_level := 7;
       depression_level := 8; happiness_level := 3 |} in
  same_features strained other /\
  mhs_score strained = mhs_score other /\
  recommendations strained = recommendations other /\
  on_compute strained = on_compute other.
Proof.
  intros other.
  assert (H : same_features strained other) by (repeat split).
  split; [exact H|].
  exact (C10_unscored_inputs_do_not_interfere strained other H).
Defined.

(* ------------------------------------------------------------------ *)
(** ** The linear ramp under the clip *)

Lemma ramp_mono (x y a b : Q) :
  a < b -> x <= y -> (x - a) / (b - a) <= (y - a) / (b - a).
Proof.
  intros Hab Hxy. unfold Qdiv.
  apply Qmult_le_compat_r; [lra|].
  apply Qlt_le_weak, Qinv_lt_0_compat. lra.
Qed.

Lemma ramp_at_min (a b : Q) : a < b -> (a - a) / (b - a) == 0.
Proof. intros H. field. lra. Qed.

Lemma ramp_at_max (a b : Q) : a < b -> (b - a) / (b - a) == 1.
Proof. intros H. field. lra. Qed.

Lemma clip_mono (s t : Q) : s <= t -> clip s 0 1 <= clip t 0 1.
Proof.
  intros H. unfold clip.
  apply Q.min_le_compat_r, Q.max_le_compat_r, H.
Qed.

Lemma clip_compat (s t : Q) : s == t -> clip s 0 1 == clip t 0 1.
Proof.
  intros H. unfold clip.
  apply Q.min_compat; [apply Q.max_compat; [exact H|]|]; reflexivity.
Qed.

Lemma normalize_positive_zero_width (x a b : Q) :
  a == b -> normalize_positive x a b = Raise ZeroDivisionError.
Proof.
  intros H. unfold normalize_positive, py_div.
  assert (E : Qeq_bool (b - a) 0 = true) by (apply Qeq_bool_iff; lra).
  rewrite E. reflexivity.
Qed.

Lemma normalize_negative_zero_width (x a b : Q) :
  a == b -> normalize_negative x a b = Raise ZeroDivisionError.
Proof.
  intros H. unfold normalize_negative, py_div.
  assert (E : Qeq_bool (b - a) 0 = true) by (apply Qeq_bool_iff; lra).
  rewrite E. reflexivity.
Qed.

Lemma normalize_positive_neq (x a b : Q) :
  ~ a == b ->
  normalize_positive x a b = Ok (clip ((x - a) / (b - a)) 0 1).
Proof.
  intros H. unfold normalize_positive.
  rewrite py_div_ok; [reflexivity|]. intros E. apply H. lra.
Qed.

Lemma normalize_negative_neq (x a b : Q) :
  ~ a == b ->
  normalize_negative x a b = Ok (clip (1 - (x - a) / (b - a)) 0 1).
Proof.
  intros H. unfold normalize_negative.
  rewrite py_div_ok; [reflexivity|]. intros E. apply H. lra.
Qed.

(* ------------------------------------------------------------------ *)
(** ** Further properties: the linear normalisers *)

(** X2.  With [min_val < max_val], [normalize_positive] never decreases
    and [normalize_negative] never increases when [x] grows. *)
Theorem X2_normalizers_monotone (x y min_val max_val : Q) :
  min_val < max_val -> x <= y ->
  (exists p q, normalize_positive x min_val max_val = Ok p /\
               normalize_positive y min_val max_val = Ok q /\ p <= q) /\
  (exists p q, normalize_negative x min_val max_val = Ok p /\
               normalize_negative y min_val max_val = Ok q /\ q <= p).
Proof.
  intros Hab Hxy. pose proof (ramp_mono x y _ _ Hab Hxy) as Hr.
  split; do 2 eexists.
  - split; [apply normalize_positive_eq, Hab|].
    split; [apply normalize_positive_eq, Hab|]. apply clip_mono, Hr.
  - split; [apply normalize_negative_eq, Hab|].
    split; [apply normalize_negative_eq, Hab|]. apply clip_mono. lra.
Qed.

Lemma X2_witness :
  0 < 30000 /\ 4000 <= 9000 /\
  (exists p q, normalize_positive 4000 0 30000 = Ok p /\
               normalize_positive 9000 0 30000 = Ok q /\ p <= q) /\
  (exists p q, normalize_negative 4000 0 30000 = Ok p /\
               normalize_negative 9000 0 30000 = Ok q /\ q <= p).
Proof.
  split; [reflexivity|]. split; [discriminate|].
  apply (X2_normalizers_monotone 4000 9000 0 30000);
    [reflexivity | discriminate].
Defined.

(** X3.  With [min_val < max_val], [normalize_positive] saturates outside
    the range and is the plain ratio inside it: 0 for [x <= min_val], 1
    for [x >= max_val], and [(x - min_val) / (max_val - min_val)] in
    between; [normalize_negative] is 1, 0 and one minus that ratio. *)
Theorem X3_normalizers_saturate (x min_val max_val : Q) :
  min_val < max_val ->
  (x <= min_val ->
   normalize_positive x min_val max_val ~> 0 /\
   normalize_negative x min_val max_val ~> 1) /\
  (max_val <= x ->
   normalize_positive x min_val max_val ~> 1 /\
   normalize_negative x min_val max_val ~> 0) /\
  (min_val <= x <= max_val ->
   normalize_positive x min_val max_val
     ~> (x - min_val) / (max_val - min_val) /\
   normalize_negative x min_val max_val
     ~> 1 - (x - min_val) / (max_val - min_val)).
Proof.
  intros Hab.
  pose proof (ramp_at_min _ _ Hab) as E0.
  pose proof (ramp_at_max _ _ Hab) as E1.
  unfold returns.
  rewrite (normalize_positive_eq x _ _ Hab), (normalize_negative_eq x _ _ Hab).
  split; [|split].
  - intros Hx. pose proof (ramp_mono x min_val _ _ Hab Hx) as Hr.
    set (t := (x - min_val) / (max_val - min_val)) in *.
    split; eexists; (split; [reflexivity|]).
    + destruct (clip_cases t) as [[? ->] | [[? ->] | [? ->]]]; lra.
    + destruct (clip_cases (1 - t)) as [[? ->] | [[? ->] | [? ->]]]; lra.
  - intros Hx. pose proof (ramp_mono max_val x _ _ Hab Hx) as Hr.
    set (t := (x - min_val) / (max_val - min_val)) in *.
    split; eexists; (split; [reflexivity|]).
    + destruct (clip_cases t) as [[? ->] | [[? ->] | [? ->]]]; lra.
    + destruct (clip_cases (1 - t)) as [[? ->] | [[? ->] | [? ->]]]; lra.
  - intros [Hlo Hhi].
    pose proof (ramp_mono min_val x _ _ Hab Hlo) as Hr0.
    pose proof (ramp_mono x max_val _ _ Hab Hhi) as Hr1.
    set (t := (x - min_val) / (max_val - min_val)) in *.
    split; eexists; (split; [reflexivity|]).
    + destruct (clip_cases t) as [[? ->] | [[? ->] | [? ->]]]; lra.
    + destruct (clip_cases (1 - t)) as [[? ->] | [[? ->] | [? ->]]]; lra.
Qed.

Lemma X3_witness :
  normalize_positive (-40) 0 180 ~> 0 /\
  normalize_negative 15 1 10 ~> 0 /\
  normalize_positive 3 1 5 ~> 0.5.
Proof.
  assert (H180 : 0 < 180) by reflexivity.
  assert (H10 : 1 < 10) by reflexivity.
  assert (H5 : 1 < 5) by reflexivity.
  split; [|split].
  - apply (proj1 (X3_normalizers_saturate (-40) 0 180 H180)). discriminate.
  - apply (proj1 (proj2 (X3_normalizers_saturate 15 1 10 H10))). discriminate.
  - destruct (proj2 (proj2 (X3_normalizers_saturate 3 1 5 H5)))
      as [(v & E & Hv) _]; [split; discriminate|].
    exists v. split; [exact E|]. rewrite Hv. reflexivity.
Defined.

(** X4.  Giving the bounds in the opposite order turns one normaliser into
    the other: for distinct bounds, [normalize_positive x a b] and
    [normalize_negative x b a] return the same number. *)
Theorem X4_swapped_bounds (x a b : Q) :
  ~ a == b ->
  exists p n,
    normalize_positive x a b = Ok p /\
    normalize_negative x b a = Ok n /\
    p == n.
Proof.
  intros N.
  assert (N' : ~ b == a) by (intros E; apply N; lra).
  do 2 eexists. split; [apply normalize_positive_neq, N|].
  split; [apply normalize_negative_neq, N'|].
  apply clip_compat. field. split; intros E; apply N; lra.
Qed.

Lemma X4_witness :
  exists p n,
    normalize_positive 4 12 0 = Ok p /\
    normalize_negative 4 0 12 = Ok n /\
    p == n.
Proof. apply (X4_swapped_bounds 4 12 0). discriminate. Defined.

(** X5.  The normalised score does not depend on the unit or the origin
    of the scale: rescaling the value and both bounds by the same
    [x |-> k * x + c] with [k > 0] leaves both results unchanged. *)
Theorem X5_scale_invariance (x min_val max_val k c : Q) :
  min_val < max_val -> 0 < k ->
  (exists p q,
     normalize_positive (k * x + c) (k * min_val + c) (k * max_val + c) = Ok p /\
     normalize_positive x min_val max_val = Ok q /\ p == q) /\
  (exists p q,
     normalize_negative (k * x + c) (k * min_val + c) (k * max_val + c) = Ok p /\
     normalize_negative x min_val max_val = Ok q /\ p == q).
Proof.
  intros Hab Hk.
  assert (Hd : 0 < k * (max_val - min_val))
    by (apply Qmult_lt_0_compat; lra).
  assert (Hab' : k * min_val + c < k * max_val + c).
  { assert (E : k * (max_val - min_val) ==
                (k * max_val + c) - (k * min_val + c)) by ring.
    rewrite E in Hd. lra. }
  assert (Er : (k * x + c - (k * min_val + c)) /
               (k * max_val + c - (k * min_val + c)) ==
               (x - min_val) / (max_val - min_val)).
  { field. split; [lra|]. intros E.
    assert (E' : k * (max_val - min_val) == 0) by (rewrite <- E; ring).
    rewrite E' in Hd. lra. }
  split; do 2 eexists.
  - split; [apply normalize_positive_eq, Hab'|].
    split; [apply normalize_positive_eq, Hab|]. apply clip_compat, Er.
  - split; [apply normalize_negative_eq, Hab'|].
    split; [apply normalize_negative_eq, Hab|]. apply clip_compat.
    rewrite Er. reflexivity.
Qed.

Lemma X5_witness :
  exists p q,
    normalize_positive (60 * (3 # 2) + 0) (60 * 0 + 0) (60 * 3 + 0) = Ok p /\
    normalize_positive (3 # 2) 0 3 = Ok q /\ p == q.
Proof.
  assert (H3 : 0 < 3) by reflexivity.
  assert (H60 : 0 < 60) by reflexivity.
  exact (proj1 (X5_scale_invariance (3 # 2) 0 3 60 0 H3 H60)).
Defined.

(* ------------------------------------------------------------------ *)
(** ** Further properties: the sleep score *)

(** The band [x] falls in, with the value returned there. *)
Lemma sleep_value (x : Q) :
  exists v, normalize_sleep x = Some v /\
    ((x < 4 /\ v == 0) \/
     (4 <= x < 7 /\ v == (x - 4) * (1 # 3)) \/
     (7 <= x <= 9 /\ v == 1) \/
     (9 < x <= 12 /\ v == 1 - (x - 9) * (1 # 3)) \/
     (12 < x /\ v == 0)).
Proof.
  destruct (normalize_sleep_total x) as (v & E & (S1 & S2 & S3 & S4) & _).
  assert (E4 : (x - 4) / 3 == (x - 4) * (1 # 3)) by field.
  assert (E9 : (x - 9) / 3 == (x - 9) * (1 # 3)) by field.
  exists v. split; [exact E|].
  destruct (Qlt_le_dec x 4) as [H4 | H4]; [left; split; [lra | apply S1; lra]|].
  destruct (Qlt_le_dec x 7) as [H7 | H7].
  { right; left. split; [lra|]. rewrite <- E4. apply S2. lra. }
  destruct (Qlt_le_dec 9 x) as [H9 | H9]; [|do 2 right; left; split;
                                              [lra | apply S3; lra]].
  destruct (Qlt_le_dec 12 x) as [H12 | H12].
  { do 4 right. split; [lra | apply S1; lra]. }
  do 3 right; left. split; [lra|]. rewrite <- E9. apply S4. lra.
Qed.

(** Case analysis on the band of every sleep value named in the goal. *)
Ltac sleep_bands :=
  repeat match goal with
  | H : _ /\ _ |- _ => destruct H
  | H : _ \/ _ |- _ => destruct H
  end.

(** X6.  The sleep score is always in [0,1]; it is 1 exactly on the
    plateau 7..9, and 0 exactly for 4 hours or less and 12 hours or
    more. *)
Theorem X6_sleep_score_extremes (x : Q) :
  exists v, normalize_sleep x = Some v /\
    0 <= v <= 1 /\
    (v == 1 <-> 7 <= x <= 9) /\
    (v == 0 <-> x <= 4 \/ 12 <= x).
Proof.
  destruct (sleep_value x) as (v & E & B).
  exists v. split; [exact E|].
  sleep_bands; (split; [lra|]); split; split; intros; sleep_bands;
    try lra; try (left; lra); try (right; lra).
Qed.

(** X7.  The sleep score is symmetric about 8 hours: [x] and [16 - x]
    score the same. *)
Theorem X7_sleep_score_symmetric (x : Q) :
  exists v w,
    normalize_sleep x = Some v /\ normalize_sleep (16 - x) = Some w /\
    v == w.
Proof.
  destruct (sleep_value x) as (v & Ev & Bv).
  destruct (sleep_value (16 - x)) as (w & Ew & Bw).
  exists v, w. split; [exact Ev|]. split; [exact Ew|].
  sleep_bands; lra.
Qed.

(** X8.  In exact arithmetic the sleep score has no jump, at the band
    boundaries or anywhere else: between two values [x <= y] it changes
    by at most a third of [y - x].  (On doubles the two sides of the
    bound are rounded separately and can differ in the last bit.) *)
Theorem X8_sleep_score_lipschitz (x y : Q) :
  x <= y ->
  exists v w,
    normalize_sleep x = Some v /\ normalize_sleep y = Some w /\
    v - w <= (y - x) * (1 # 3) /\ w - v <= (y - x) * (1 # 3).
Proof.
  intros Hxy.
  destruct (sleep_value x) as (v & Ev & Bv).
  destruct (sleep_value y) as (w & Ew & Bw).
  exists v, w. split; [exact Ev|]. split; [exact Ew|].
  sleep_bands; split; lra.
Qed.

Lemma X8_witness :
  exists v w,
    normalize_sleep 6.99 = Some v /\ normalize_sleep 7 = Some w /\
    v - w <= (7 - 6.99) * (1 # 3) /\ w - v <= (7 - 6.99) * (1 # 3).
Proof. apply (X8_sleep_score_lipschitz 6.99 7). discriminate. Defined.

(** X9.  The sleep score rises up to the plateau and falls after it: it
    never decreases while [x] grows up to 9 hours, and never increases
    while [x] grows from 7 hours on. *)
Theorem X9_sleep_score_unimodal (x y : Q) :
  x <= y ->
  exists v w,
    normalize_sleep x = Some v /\ normalize_sleep y = Some w /\
    (y <= 9 -> v <= w) /\ (7 <= x -> w <= v).
Proof.
  intros Hxy.
  destruct (sleep_value x) as (v & Ev & Bv).
  destruct (sleep_value y) as (w & Ew & Bw).
  exists v, w. split; [exact Ev|]. split; [exact Ew|].
  sleep_bands; split; intros; lra.
Qed.

Lemma X9_witness :
  exists v w,
    normalize_sleep 5 = Some v /\ normalize_sleep 6 = Some w /\
    (6 <= 9 -> v <= w) /\ (7 <= 5 -> w <= v).
Proof. apply (X9_sleep_score_unimodal 5 6). discriminate. Defined.

(* ------------------------------------------------------------------ *)
(** ** The score as a weighted sum of clipped ramps *)

Lemma mhs_score_unfold (i : Inputs) :
  exists v, normalize_sleep (sleep_hours i) = Some v /\ 0 <= v <= 1 /\
    mhs_score i =
    Ok (100 *
        (v * 0.1 +
         clip ((inject_Z (daily_steps i) - 0) / (30000 - 0)) 0 1 * 0.1 +
         clip ((inject_Z (exercise_frequency i) - 0) / (7 - 0)) 0 1 * 0.1 +
         clip ((inject_Z (exercise_duration i) - 0) / (180 - 0)) 0 1 * 0.1 +
         clip ((inject_Z (diet_quality i) - 1) / (5 - 1)) 0 1 * 0.1 +
         clip ((inject_Z (social_interaction i) - 0) / (20 - 0)) 0 1 * 0.1 +
         clip ((inject_Z (happiness_level i) - 1) / (10 - 1)) 0 1 * 0.1 +
         clip (1 - (screen_time i - 0) / (12 - 0)) 0 1 * 0.1 +
         clip (1 - (inject_Z (stress_level i) - 1) / (10 - 1)) 0 1 * 0.1 +
         clip (1 - (inject_Z (anxiety_level i) - 1) / (10 - 1)) 0 1 * 0.05 +
         clip (1 - (inject_Z (depression_level i) - 1) / (10 - 1)) 0 1 * 0.05)).
Proof.
  destruct (normalize_sleep_total (sleep_hours i)) as (v & E & _ & Hv).
  exists v. split; [exact E|]. split; [exact Hv|].
  unfold mhs_score. rewrite E.
  rewrite !normalize_positive_eq, !normalize_negative_eq by reflexivity.
  unfold weighted.
  destruct getitem_weights
    as (-> & -> & -> & -> & -> & -> & -> & -> & -> & -> & ->).
  reflexivity.
Qed.

Lemma inject_Z_le (a b : Z) : (a <= b)%Z -> inject_Z a <= inject_Z b.
Proof. intros H. rewrite <- Zle_Qle. exact H. Qed.

(** Inside its range a ramp is not clipped. *)
Lemma clip_ramp_inside (x a b : Q) :
  a < b -> a <= x <= b ->
  clip ((x - a) / (b - a)) 0 1 == (x - a) / (b - a) /\
  clip (1 - (x - a) / (b - a)) 0 1 == 1 - (x - a) / (b - a).
Proof.
  intros Hab [Hlo Hhi].
  pose proof (ramp_at_min _ _ Hab) as E0.
  pose proof (ramp_at_max _ _ Hab) as E1.
  pose proof (ramp_mono a x _ _ Hab Hlo) as Hr0.
  pose proof (ramp_mono x b _ _ Hab Hhi) as Hr1.
  set (t := (x - a) / (b - a)) in *.
  split.
  - destruct (clip_cases t) as [[? ->] | [[? ->] | [? ->]]]; lra.
  - destruct (clip_cases (1 - t)) as [[? ->] | [[? ->] | [? ->]]]; lra.
Qed.

(* ------------------------------------------------------------------ *)
(** ** Further properties: the score *)

(** X11.  For a batch within the widgets' ranges no clipping takes place:
    the score is 100 times the weighted sum of the sleep score and the
    ten plain ratios. *)
Theorem X11_score_linear_in_domain (i : Inputs) :
  in_domain i ->
  exists v, normalize_sleep (sleep_hours i) = Some v /\
    mhs_score i ~>
    100 *
    (v * 0.1 +
     inject_Z (daily_steps i) / 30000 * 0.1 +
     inject_Z (exercise_frequency i) / 7 * 0.1 +
     inject_Z (exercise_duration i) / 180 * 0.1 +
     (inject_Z (diet_quality i) - 1) / 4 * 0.1 +
     inject_Z (social_interaction i) / 20 * 0.1 +
     (inject_Z (happiness_level i) - 1) / 9 * 0.1 +
     (1 - screen_time i / 12) * 0.1 +
     (1 - (inject_Z (stress_level i) - 1) / 9) * 0.1 +
     (1 - (inject_Z (anxiety_level i) - 1) / 9) * 0.05 +
     (1 - (inject_Z (depression_level i) - 1) / 9) * 0.05).
Proof.
  intros D. destruct (mhs_score_unfold i) as (v & E & _ & ->).
  exists v. split; [exact E|]. eexists. split; [reflexivity|].
  destruct D as [Dsl [S0 S1] [T0 T1] [O0 O1] [F0 F1] [U0 U1] Dsc
                   [R0 R1] [A0 A1] [P0 P1] [H0 H1]].
  apply inject_Z_le in S0, S1, T0, T1, O0, O1, F0, F1, U0, U1,
                       R0, R1, A0, A1, P0, P1, H0, H1.
  destruct (clip_ramp_inside (inject_Z (daily_steps i)) 0 30000)
    as [-> _]; [reflexivity | split; assumption|].
  destruct (clip_ramp_inside (inject_Z (exercise_frequency i)) 0 7)
    as [-> _]; [reflexivity | split; assumption|].
  destruct (clip_ramp_inside (inject_Z (exercise_duration i)) 0 180)
    as [-> _]; [reflexivity | split; assumption|].
  destruct (clip_ramp_inside (inject_Z (diet_quality i)) 1 5)
    as [-> _]; [reflexivity | split; assumption|].
  destruct (clip_ramp_inside (inject_Z (social_interaction i)) 0 20)
    as [-> _]; [reflexivity | split; assumption|].
  destruct (clip_ramp_inside (inject_Z (happiness_level i)) 1 10)
    as [-> _]; [reflexivity | split; assumption|].
  destruct (clip_ramp_inside (screen_time i) 0 12)
    as [_ ->]; [reflexivity | exact Dsc|].
  destruct (clip_ramp_inside (inject_Z (stress_level i)) 1 10)
    as [_ ->]; [reflexivity | split; assumption|].
  destruct (clip_ramp_inside (inject_Z (anxiety_level i)) 1 10)
    as [_ ->]; [reflexivity | split; assumption|].
  destruct (clip_ramp_inside (inject_Z (depression_level i)) 1 10)
    as [_ ->]; [reflexivity | split; assumption|].
  field.
Qed.

Lemma X11_witness :
  in_domain balanced /\
  exists v, normalize_sleep (sleep_hours balanced) = Some v /\
    mhs_score balanced ~>
    100 *
    (v * 0.1 +
     inject_Z (daily_steps balanced) / 30000 * 0.1 +
     inject_Z (exercise_frequency balanced) / 7 * 0.1 +
     inject_Z (exercise_duration balanced) / 180 * 0.1 +
     (inject_Z (diet_quality balanced) - 1) / 4 * 0.1 +
     inject_Z (social_interaction balanced) / 20 * 0.1 +
     (inject_Z (happiness_level balanced) - 1) / 9 * 0.1 +
     (1 - screen_time balanced / 12) * 0.1 +
     (1 - (inject_Z (stress_level balanced) - 1) / 9) * 0.1 +
     (1 - (inject_Z (anxiety_level balanced) - 1) / 9) * 0.05 +
     (1 - (inject_Z (depression_level balanced) - 1) / 9) * 0.05).
Proof.
  assert (D : in_domain balanced) by (constructor; cbn; (lra || lia)).
  split; [exact D|]. exact (X11_score_linear_in_domain balanced D).
Defined.

(** X12.  Improving a batch never lowers its score: if [j] is at least as
    favourable as [i] in every scored feature (more steps, exercise, diet,
    contact and happiness; less screen time, stress, anxiety and
    depression; sleep nearer the plateau), then the score of [j] is at
    least that of [i]. *)
Theorem X12_score_monotone (i j : Inputs) :
  no_worse i j ->
  exists s t, mhs_score i = Ok s /\ mhs_score j = Ok t /\ s <= t.
Proof.
  intros [Hsl Hst Hef Hed Hdi Hso Hha Hsc Hsr Han Hde].
  destruct (sleep_value (sleep_hours i)) as (v & Ev & Bv).
  destruct (sleep_value (sleep_hours j)) as (w & Ew & Bw).
  destruct (mhs_score_unfold i) as (v' & Ev' & _ & Ei).
  destruct (mhs_score_unfold j) as (w' & Ew' & _ & Ej).
  rewrite Ev in Ev'. injection Ev' as <-.
  rewrite Ew in Ew'. injection Ew' as <-.
  assert (Hvw : v <= w) by (sleep_bands; lra).
  apply inject_Z_le in Hst, Hef, Hed, Hdi, Hso, Hha, Hsr, Han, Hde.
  do 2 eexists. split; [exact Ei|]. split; [exact Ej|].
  pose proof (clip_mono _ _ (ramp_mono _ _ 0 30000 eq_refl Hst)) as M1.
  pose proof (clip_mono _ _ (ramp_mono _ _ 0 7 eq_refl Hef)) as M2.
  pose proof (clip_mono _ _ (ramp_mono _ _ 0 180 eq_refl Hed)) as M3.
  pose proof (clip_mono _ _ (ramp_mono _ _ 1 5 eq_refl Hdi)) as M4.
  pose proof (clip_mono _ _ (ramp_mono _ _ 0 20 eq_refl Hso)) as M5.
  pose proof (clip_mono _ _ (ramp_mono _ _ 1 10 eq_refl Hha)) as M6.
  assert (M7 : clip (1 - (screen_time i - 0) / (12 - 0)) 0 1 <=
               clip (1 - (screen_time j - 0) / (12 - 0)) 0 1).
  { apply clip_mono.
    pose proof (ramp_mono _ _ 0 12 eq_refl Hsc). lra. }
  assert (M8 : clip (1 - (inject_Z (stress_level i) - 1) / (10 - 1)) 0 1 <=
               clip (1 - (inject_Z (stress_level j) - 1) / (10 - 1)) 0 1).
  { apply clip_mono.
    pose proof (ramp_mono _ _ 1 10 eq_refl Hsr). lra. }
  assert (M9 : clip (1 - (inject_Z (anxiety_level i) - 1) / (10 - 1)) 0 1 <=
               clip (1 - (inject_Z (anxiety_level j) - 1) / (10 - 1)) 0 1).
  { apply clip_mono.
    pose proof (ramp_mono _ _ 1 10 eq_refl Han). lra. }
  assert (M10 : clip (1 - (inject_Z (depression_level i) - 1) / (10 - 1)) 0 1 <=
                clip (1 - (inject_Z (depression_level j) - 1) / (10 - 1)) 0 1).
  { apply clip_mono.
    pose proof (ramp_mono _ _ 1 10 eq_refl Hde). lra. }
  bound_clips. lra.
Qed.

Lemma X12_witness :
  no_worse strained balanced /\
  exists s t,
    mhs_score strained = Ok s /\ mhs_score balanced = Ok t /\ s <= t.
Proof.
  assert (H : no_worse strained balanced).
  { constructor; cbn; (lia || lra). }
  split; [exact H|]. exact (X12_score_monotone strained balanced H).
Defined.

(* ------------------------------------------------------------------ *)
(** ** The tips, one by one *)

Ltac in_table :=
  unfold rule_table; cbn [In]; repeat ((left; reflexivity) || right).

(** Each tip is in the list exactly when its own test on the raw value
    succeeds. *)
Lemma tips_present (i : Inputs) :
  (In tip_sleep_short (recommendations i) <-> sleep_hours i < 7) /\
  (In tip_sleep_long (recommendations i) <-> 9 < sleep_hours i) /\
  (In tip_screen (recommendations i) <-> 5 < screen_time i) /\
  (In tip_exercise (recommendations i) <-> (exercise_frequency i < 3)%Z) /\
  (In tip_duration (recommendations i) <->
   (3 <= exercise_frequency i)%Z /\ (exercise_duration i < 30)%Z) /\
  (In tip_diet (recommendations i) <-> (diet_quality i < 3)%Z) /\
  (In tip_stress (recommendations i) <-> (6 < stress_level i)%Z) /\
  (In tip_anxiety (recommendations i) <-> (6 < anxiety_level i)%Z) /\
  (In tip_mood (recommendations i) <-> (6 < depression_level i)%Z) /\
  (In tip_social (recommendations i) <-> (social_interaction i < 3)%Z) /\
  (In tip_happiness (recommendations i) <-> (happiness_level i < 5)%Z).
Proof.
  repeat match goal with |- _ /\ _ => split end.
  - rewrite (tip_in_recommendations i
               (mkRule CSleep (fun i => sleep_hours i <? 7) tip_sleep_short))
      by in_table.
    cbn [advice fires]. apply Qltb_true.
  - rewrite (tip_in_recommendations i
               (mkRule CSleep
                  (fun i => negb (sleep_hours i <? 7) && (sleep_hours i >? 9))
                  tip_sleep_long)) by in_table.
    cbn [advice fires].
    rewrite andb_true_iff, negb_true_iff, Qltb_false, Qltb_true.
    split; intros; lra.
  - rewrite (tip_in_recommendations i
               (mkRule CScreen (fun i => screen_time i >? 5) tip_screen))
      by in_table.
    cbn [advice fires]. apply Qltb_true.
  - rewrite (tip_in_recommendations i rule_exercise) by in_table.
    cbn [advice fires rule_exercise]. apply Z.ltb_lt.
  - rewrite (tip_in_recommendations i rule_duration) by in_table.
    cbn [advice fires rule_duration].
    rewrite andb_true_iff, negb_true_iff, Z.ltb_ge, Z.ltb_lt. reflexivity.
  - rewrite (tip_in_recommendations i
               (mkRule CDiet (fun i => (diet_quality i <? 3)%Z) tip_diet))
      by in_table.
    cbn [advice fires]. apply Z.ltb_lt.
  - rewrite (tip_in_recommendations i
               (mkRule CStress (fun i => (stress_level i >? 6)%Z) tip_stress))
      by in_table.
    cbn [advice fires]. rewrite Z.gtb_ltb. apply Z.ltb_lt.
  - rewrite (tip_in_recommendations i
               (mkRule CAnxiety (fun i => (anxiety_level i >? 6)%Z)
                  tip_anxiety)) by in_table.
    cbn [advice fires]. rewrite Z.gtb_ltb. apply Z.ltb_lt.
  - rewrite (tip_in_recommendations i
               (mkRule CDepression (fun i => (depression_level i >? 6)%Z)
                  tip_mood)) by in_table.
    cbn [advice fires]. rewrite Z.gtb_ltb. apply Z.ltb_lt.
  - rewrite (tip_in_recommendations i
               (mkRule CSocial (fun i => (social_interaction i <? 3)%Z)
                  tip_social)) by in_table.
    cbn [advice fires]. apply Z.ltb_lt.
  - rewrite (tip_in_recommendations i
               (mkRule CHappiness (fun i => (happiness_level i <? 5)%Z)
                  tip_happiness)) by in_table.
    cbn [advice fires]. apply Z.ltb_lt.
Qed.

(** Nothing but the eleven tips is ever put in the list. *)
Lemma recommendations_are_tips (i : Inputs) (t : string) :
  In t (recommendations i) -> In t (map advice rule_table).
Proof.
  rewrite recommendations_spec. unfold spec_recommendations, fired.
  apply advice_fired_subset.
Qed.

(** When the list is empty no test succeeded, and conversely. *)
Lemma no_tips_iff (i : Inputs) :
  recommendations i = [] <->
  7 <= sleep_hours i <= 9 /\ screen_time i <= 5 /\
  (3 <= exercise_frequency i)%Z /\ (30 <= exercise_duration i)%Z /\
  (3 <= diet_quality i)%Z /\ (stress_level i <= 6)%Z /\
  (anxiety_level i <= 6)%Z /\ (depression_level i <= 6)%Z /\
  (3 <= social_interaction i)%Z /\ (5 <= happiness_level i)%Z.
Proof.
  destruct (tips_present i)
    as (T1 & T2 & T3 & T4 & T5 & T6 & T7 & T8 & T9 & T10 & T11).
  split.
  - intros E. rewrite E in *. cbn [In] in *.
    repeat split; try lia;
      try (apply Qnot_lt_le; tauto).
  - intros (Hsl & Hsc & Hef & Hed & Hdi & Hst & Han & Hde & Hso & Hha).
    destruct (recommendations i) as [|t l] eqn:E; [reflexivity|exfalso].
    assert (Hin : In t (recommendations i)) by (rewrite E; left; reflexivity).
    rewrite <- E in *. clear E.
    pose proof (recommendations_are_tips i t Hin) as Ht.
    unfold rule_table, rule_exercise, rule_duration in Ht.
    cbn [map advice In] in Ht.
    repeat (destruct Ht as [Et | Ht];
            [ subst t;
              first [ apply T1 in Hin | apply T2 in Hin | apply T3 in Hin
                    | apply T4 in Hin | apply T5 in Hin | apply T6 in Hin
                    | apply T7 in Hin | apply T8 in Hin | apply T9 in Hin
                    | apply T10 in Hin | apply T11 in Hin ];
              (lia || lra)
            | ]).
    exact Ht.
Qed.

(* ------------------------------------------------------------------ *)
(** ** Further properties: the tips *)

(** X13.  About sleep the list holds the short-sleep tip exactly below 7
    hours and the oversleeping tip exactly above 9, never both; and it
    holds neither exactly when the sleep score is 1: the plateau of the
    score is the range the rule engine leaves alone. *)
Theorem X13_sleep_tips_match_score (i : Inputs) :
  (In tip_sleep_short (recommendations i) <-> sleep_hours i < 7) /\
  (In tip_sleep_long (recommendations i) <-> 9 < sleep_hours i) /\
  ~ (In tip_sleep_short (recommendations i) /\
     In tip_sleep_long (recommendations i)) /\
  exists v, normalize_sleep (sleep_hours i) = Some v /\
    (v == 1 <->
     ~ In tip_sleep_short (recommendations i) /\
     ~ In tip_sleep_long (recommendations i)).
Proof.
  destruct (tips_present i) as (T1 & T2 & _).
  split; [exact T1|]. split; [exact T2|]. split.
  - rewrite T1, T2. lra.
  - destruct (sleep_value (sleep_hours i)) as (v & E & B).
    exists v. split; [exact E|]. rewrite T1, T2.
    sleep_bands; split; intros; sleep_bands; try lra; split; lra.
Qed.

(** X14.  The seven remaining tips depend on one input each: screen time
    above 5, diet below 3, stress, anxiety and depression above 6, social
    interaction below 3, happiness below 5; each is in the list exactly
    when its own test holds, whatever the other inputs are. *)
Theorem X14_independent_tips (i : Inputs) :
  (In tip_screen (recommendations i) <-> 5 < screen_time i) /\
  (In tip_diet (recommendations i) <-> (diet_quality i < 3)%Z) /\
  (In tip_stress (recommendations i) <-> (6 < stress_level i)%Z) /\
  (In tip_anxiety (recommendations i) <-> (6 < anxiety_level i)%Z) /\
  (In tip_mood (recommendations i) <-> (6 < depression_level i)%Z) /\
  (In tip_social (recommendations i) <-> (social_interaction i < 3)%Z) /\
  (In tip_happiness (recommendations i) <-> (happiness_level i < 5)%Z).
Proof.
  destruct (tips_present i)
    as (_ & _ & T3 & _ & _ & T6 & T7 & T8 & T9 & T10 & T11).
  repeat split; tauto.
Qed.

(** X15.  A page never carries more than nine tips, although eleven
    exist: the two sleep tips exclude each other and so do the two
    exercise tips. *)
Theorem X15_at_most_nine_tips (i : Inputs) :
  (List.length (recommendations i) <= 9)%nat.
Proof.
  rewrite recommendations_spec.
  unfold spec_recommendations, fired, rule_table, rule_exercise, rule_duration.
  rewrite !advice_filter_cons. cbn [filter map fires advice].
  rewrite !length_app. cbn [List.length].
  assert (Hs : (List.length (if (sleep_hours i <? 7)%Q
                             then [tip_sleep_short] else []) +
                List.length (if negb (sleep_hours i <? 7)%Q
                                && (sleep_hours i >? 9)%Q
                             then [tip_sleep_long] else []) <= 1)%nat).
  { destruct (sleep_hours i <? 7), (sleep_hours i >? 9); cbn; lia. }
  assert (He : (List.length (if (exercise_frequency i <? 3)%Z
                        then [tip_exercise] else []) +
                List.length (if negb (exercise_frequency i <? 3)%Z
                           && (exercise_duration i <? 30)%Z
                        then [tip_duration] else []) <= 1)%nat).
  { destruct (exercise_frequency i <? 3)%Z, (exercise_duration i <? 30)%Z;
      cbn; lia. }
  assert (H1 : forall (b : bool) (t : string),
             (List.length (if b then [t] else []) <= 1)%nat).
  { intros [] t; cbn; lia. }
  pose proof (H1 (screen_time i >? 5)%Q tip_screen).
  pose proof (H1 (diet_quality i <? 3)%Z tip_diet).
  pose proof (H1 (stress_level i >? 6)%Z tip_stress).
  pose proof (H1 (anxiety_level i >? 6)%Z tip_anxiety).
  pose proof (H1 (depression_level i >? 6)%Z tip_mood).
  pose proof (H1 (social_interaction i <? 3)%Z tip_social).
  pose proof (H1 (happiness_level i <? 5)%Z tip_happiness).
  lia.
Qed.

(** X16.  The closing message replaces the bullets exactly when every
    input is on the good side of its threshold: sleep within 7..9, screen
    time at most 5, exercise on at least 3 days for at least 30 minutes,
    diet at least 3, stress, anxiety and depression at most 6, social
    interaction at least 3 and happiness at least 5. *)
Theorem X16_all_good_iff (i : Inputs) :
  show_tips (recommendations i) = [Success all_good] <->
  7 <= sleep_hours i <= 9 /\ screen_time i <= 5 /\
  (3 <= exercise_frequency i)%Z /\ (30 <= exercise_duration i)%Z /\
  (3 <= diet_quality i)%Z /\ (stress_level i <= 6)%Z /\
  (anxiety_level i <= 6)%Z /\ (depression_level i <= 6)%Z /\
  (3 <= social_interaction i)%Z /\ (5 <= happiness_level i)%Z.
Proof.
  rewrite <- no_tips_iff.
  destruct (recommendations i) as [|t l]; cbn [show_tips map].
  - split; reflexivity.
  - split; discriminate.
Qed.

(* ------------------------------------------------------------------ *)
(** ** Where a clipped ramp reaches 0 and 1 *)

Lemma ramp_lt (x y a b : Q) :
  a < b -> x < y -> (x - a) / (b - a) < (y - a) / (b - a).
Proof.
  intros Hab Hxy. unfold Qdiv.
  apply Qmult_lt_compat_r; [apply Qinv_lt_0_compat|]; lra.
Qed.

Lemma ramp_ge_one (x a b : Q) :
  a < b -> (1 <= (x - a) / (b - a) <-> b <= x).
Proof.
  intros Hab. pose proof (ramp_at_max _ _ Hab) as E1. split.
  - intros H. apply Qnot_lt_le. intros Hlt.
    pose proof (ramp_lt x b _ _ Hab Hlt). lra.
  - intros H. pose proof (ramp_mono b x _ _ Hab H). lra.
Qed.

Lemma ramp_le_zero (x a b : Q) :
  a < b -> ((x - a) / (b - a) <= 0 <-> x <= a).
Proof.
  intros Hab. pose proof (ramp_at_min _ _ Hab) as E0. split.
  - intros H. apply Qnot_lt_le. intros Hlt.
    pose proof (ramp_lt a x _ _ Hab Hlt). lra.
  - intros H. pose proof (ramp_mono x a _ _ Hab H). lra.
Qed.

Lemma clip_one_iff (t : Q) : clip t 0 1 == 1 <-> 1 <= t.
Proof.
  destruct (clip_cases t) as [[? E] | [[? E] | [? E]]]; rewrite E;
    split; intros; lra.
Qed.

Lemma clip_zero_iff (t : Q) : clip t 0 1 == 0 <-> t <= 0.
Proof.
  destruct (clip_cases t) as [[? E] | [[? E] | [? E]]]; rewrite E;
    split; intros; lra.
Qed.

Section Extremes.

Variables (x a b : Q).
Hypothesis Hab : a < b.

Lemma clip_pos_one : clip ((x - a) / (b - a)) 0 1 == 1 <-> b <= x.
Proof. rewrite clip_one_iff. apply ramp_ge_one, Hab. Qed.

Lemma clip_pos_zero : clip ((x - a) / (b - a)) 0 1 == 0 <-> x <= a.
Proof. rewrite clip_zero_iff. apply ramp_le_zero, Hab. Qed.

Lemma clip_neg_one : clip (1 - (x - a) / (b - a)) 0 1 == 1 <-> x <= a.
Proof.
  rewrite clip_one_iff, <- (ramp_le_zero x a b Hab). split; intros; lra.
Qed.

Lemma clip_neg_zero : clip (1 - (x - a) / (b - a)) 0 1 == 0 <-> b <= x.
Proof.
  rewrite clip_zero_iff, <- (ramp_ge_one x a b Hab). split; intros; lra.
Qed.

End Extremes.

Lemma sleep_one_iff (x v : Q) :
  normalize_sleep x = Some v -> (v == 1 <-> 7 <= x <= 9).
Proof.
  intros E. destruct (sleep_value x) as (v' & E' & B).
  rewrite E in E'. injection E' as <-.
  sleep_bands; split; intros; sleep_bands; try lra; split; lra.
Qed.

Lemma sleep_zero_iff (x v : Q) :
  normalize_sleep x = Some v -> (v == 0 <-> x <= 4 \/ 12 <= x).
Proof.
  intros E. destruct (sleep_value x) as (v' & E' & B).
  rewrite E in E'. injection E' as <-.
  sleep_bands; split; intros; sleep_bands;
    try lra; try (left; lra); try (right; lra).
Qed.

Lemma returns_Ok (a q : Q) : Ok a ~> q <-> a == q.
Proof.
  unfold returns. split.
  - intros (v & E & Hv). injection E as ->. exact Hv.
  - intros H. exists a. split; [reflexivity | exact H].
Qed.

(** Every clipped term of the score as an equivalence on the raw value. *)
Ltac extremes_to_clips :=
  rewrite ?Zle_Qle;
  repeat match goal with
  | |- context [clip ((?x - ?a) / (?b - ?a)) 0 1 == 1] =>
      rewrite (clip_pos_one x a b eq_refl)
  | |- context [clip (1 - (?x - ?a) / (?b - ?a)) 0 1 == 1] =>
      rewrite (clip_neg_one x a b eq_refl)
  | |- context [clip ((?x - ?a) / (?b - ?a)) 0 1 == 0] =>
      rewrite (clip_pos_zero x a b eq_refl)
  | |- context [clip (1 - (?x - ?a) / (?b - ?a)) 0 1 == 0] =>
      rewrite (clip_neg_zero x a b eq_refl)
  end.

(** X18.  The score is 100 exactly when every feature is at its best:
    sleep on the 7..9 plateau, every positive feature at (or beyond) the
    top of its range and every negative one at (or below) the bottom.
    Such a batch gets no tip, only the closing message. *)
Theorem X18_perfect_score_iff (i : Inputs) :
  (mhs_score i ~> 100 <->
   7 <= sleep_hours i <= 9 /\
   (30000 <= daily_steps i)%Z /\ (7 <= exercise_frequency i)%Z /\
   (180 <= exercise_duration i)%Z /\ (5 <= diet_quality i)%Z /\
   (20 <= social_interaction i)%Z /\ (10 <= happiness_level i)%Z /\
   screen_time i <= 0 /\ (stress_level i <= 1)%Z /\
   (anxiety_level i <= 1)%Z /\ (depression_level i <= 1)%Z) /\
  (mhs_score i ~> 100 ->
   show_tips (recommendations i) = [Success all_good]).
Proof.
  assert (Hiff : mhs_score i ~> 100 <->
   7 <= sleep_hours i <= 9 /\
   (30000 <= daily_steps i)%Z /\ (7 <= exercise_frequency i)%Z /\
   (180 <= exercise_duration i)%Z /\ (5 <= diet_quality i)%Z /\
   (20 <= social_interaction i)%Z /\ (10 <= happiness_level i)%Z /\
   screen_time i <= 0 /\ (stress_level i <= 1)%Z /\
   (anxiety_level i <= 1)%Z /\ (depression_level i <= 1)%Z).
  { destruct (mhs_score_unfold i) as (v & E & Hv & ->).
    rewrite returns_Ok, <- (sleep_one_iff _ _ E).
    assert (K :
      v == 1 /\
      clip ((inject_Z (daily_steps i) - 0) / (30000 - 0)) 0 1 == 1 /\
      clip ((inject_Z (exercise_frequency i) - 0) / (7 - 0)) 0 1 == 1 /\
      clip ((inject_Z (exercise_duration i) - 0) / (180 - 0)) 0 1 == 1 /\
      clip ((inject_Z (diet_quality i) - 1) / (5 - 1)) 0 1 == 1 /\
      clip ((inject_Z (social_interaction i) - 0) / (20 - 0)) 0 1 == 1 /\
      clip ((inject_Z (happiness_level i) - 1) / (10 - 1)) 0 1 == 1 /\
      clip (1 - (screen_time i - 0) / (12 - 0)) 0 1 == 1 /\
      clip (1 - (inject_Z (stress_level i) - 1) / (10 - 1)) 0 1 == 1 /\
      clip (1 - (inject_Z (anxiety_level i) - 1) / (10 - 1)) 0 1 == 1 /\
      clip (1 - (inject_Z (depression_level i) - 1) / (10 - 1)) 0 1 == 1
      <->
      v == 1 /\
      (30000 <= daily_steps i)%Z /\ (7 <= exercise_frequency i)%Z /\
      (180 <= exercise_duration i)%Z /\ (5 <= diet_quality i)%Z /\
      (20 <= social_interaction i)%Z /\ (10 <= happiness_level i)%Z /\
      screen_time i <= 0 /\ (stress_level i <= 1)%Z /\
      (anxiety_level i <= 1)%Z /\ (depression_level i <= 1)%Z).
    { extremes_to_clips. reflexivity. }
    rewrite <- K. clear K. bound_clips.
    split; [intros H; repeat split; lra | intros H; lra]. }
  split; [exact Hiff|].
  intros H. apply Hiff in H.
  destruct H as (Hsl & Hst & Hef & Hed & Hdi & Hso & Hha & Hsc & Hsr & Han & Hde).
  assert (E : recommendations i = []).
  { apply no_tips_iff. repeat split; try lia; lra. }
  rewrite E. reflexivity.
Qed.

Lemma X18_witness :
  mhs_score all_optimal ~> 100 /\
  show_tips (recommendations all_optimal) = [Success all_good].
Proof.
  assert (H : mhs_score all_optimal ~> 100).
  { apply (proj1 (X18_perfect_score_iff all_optimal)).
    cbn. repeat split; (lia || lra). }
  split; [exact H|]. exact (proj2 (X18_perfect_score_iff all_optimal) H).
Defined.

(** X19.  The score is 0 exactly when every feature is at its worst:
    sleep of 4 hours or less or 12 or more, every positive feature at (or
    below) the bottom of its range and every negative one at (or beyond)
    the top. *)
Theorem X19_zero_score_iff (i : Inputs) :
  mhs_score i ~> 0 <->
  (sleep_hours i <= 4 \/ 12 <= sleep_hours i) /\
  (daily_steps i <= 0)%Z /\ (exercise_frequency i <= 0)%Z /\
  (exercise_duration i <= 0)%Z /\ (diet_quality i <= 1)%Z /\
  (social_interaction i <= 0)%Z /\ (happiness_level i <= 1)%Z /\
  12 <= screen_time i /\ (10 <= stress_level i)%Z /\
  (10 <= anxiety_level i)%Z /\ (10 <= depression_level i)%Z.
Proof.
  destruct (mhs_score_unfold i) as (v & E & Hv & ->).
  rewrite returns_Ok, <- (sleep_zero_iff _ _ E).
  assert (K :
    v == 0 /\
    clip ((inject_Z (daily_steps i) - 0) / (30000 - 0)) 0 1 == 0 /\
    clip ((inject_Z (exercise_frequency i) - 0) / (7 - 0)) 0 1 == 0 /\
    clip ((inject_Z (exercise_duration i) - 0) / (180 - 0)) 0 1 == 0 /\
    clip ((inject_Z (diet_quality i) - 1) / (5 - 1)) 0 1 == 0 /\
    clip ((inject_Z (social_interaction i) - 0) / (20 - 0)) 0 1 == 0 /\
    clip ((inject_Z (happiness_level i) - 1) / (10 - 1)) 0 1 == 0 /\
    clip (1 - (screen_time i - 0) / (12 - 0)) 0 1 == 0 /\
    clip (1 - (inject_Z (stress_level i) - 1) / (10 - 1)) 0 1 == 0 /\
    clip (1 - (inject_Z (anxiety_level i) - 1) / (10 - 1)) 0 1 == 0 /\
    clip (1 - (inject_Z (depression_level i) - 1) / (10 - 1)) 0 1 == 0
    <->
    v == 0 /\
    (daily_steps i <= 0)%Z /\ (exercise_frequency i <= 0)%Z /\
    (exercise_duration i <= 0)%Z /\ (diet_quality i <= 1)%Z /\
    (social_interaction i <= 0)%Z /\ (happiness_level i <= 1)%Z /\
    12 <= screen_time i /\ (10 <= stress_level i)%Z /\
    (10 <= anxiety_level i)%Z /\ (10 <= depression_level i)%Z).
  { extremes_to_clips. reflexivity. }
  rewrite <- K. clear K. bound_clips.
  split; [intros H; repeat split; lra | intros H; lra].
Qed.

Lemma clip_pos_lower (c x a b q : Q) :
  a < b -> c <= x -> q <= clip ((c - a) / (b - a)) 0 1 ->
  q <= clip ((x - a) / (b - a)) 0 1.
Proof.
  intros Hab Hcx Hq.
  pose proof (clip_mono _ _ (ramp_mono c x a b Hab Hcx)). lra.
Qed.

Lemma clip_neg_lower (c x a b q : Q) :
  a < b -> x <= c -> q <= clip (1 - (c - a) / (b - a)) 0 1 ->
  q <= clip (1 - (x - a) / (b - a)) 0 1.
Proof.
  intros Hab Hxc Hq.
  pose proof (ramp_mono x c a b Hab Hxc) as Hr.
  assert (Hm : 1 - (c - a) / (b - a) <= 1 - (x - a) / (b - a)) by lra.
  pose proof (clip_mono _ _ Hm). lra.
Qed.

(** X17.  A page without tips can still carry a low score.  When no rule
    fires the score is at least 874/21 (about 41.6), and no more can be
    said: the batch sitting on every threshold reaches exactly that,
    within the widgets' ranges, and its page shows the warning of the
    lowest tier followed by the closing message. *)
Theorem X17_score_floor_without_tips :
  (forall i : Inputs, recommendations i = [] ->
     exists s, mhs_score i = Ok s /\ 874 # 21 <= s) /\
  in_domain quiet_minimum /\
  exists s, s == 874 # 21 /\
    on_compute quiet_minimum =
    Ok ([Markdown "---"; Subheader s] ++ show_tier Concerning ++
        [Markdown "### 💡 Personalized Recommendations"; Success all_good]).
Proof.
  split; [|split].
  - intros i Hq. apply no_tips_iff in Hq.
    destruct Hq as (Hsl & Hsc & Hef & Hed & Hdi & Hst & Han & Hde & Hso & Hha).
    destruct (mhs_score_unfold i) as (v & E & Hv & ->).
    apply (sleep_one_iff _ _ E) in Hsl.
    apply inject_Z_le in Hef, Hed, Hdi, Hst, Han, Hde, Hso, Hha.
    eexists. split; [reflexivity|].
    pose proof (clip_pos_lower 3 _ 0 7 (3 # 7) eq_refl Hef
                  ltac:(vm_compute; discriminate)).
    pose proof (clip_pos_lower 30 _ 0 180 (1 # 6) eq_refl Hed
                  ltac:(vm_compute; discriminate)).
    pose proof (clip_pos_lower 3 _ 1 5 (1 # 2) eq_refl Hdi
                  ltac:(vm_compute; discriminate)).
    pose proof (clip_pos_lower 3 _ 0 20 (3 # 20) eq_refl Hso
                  ltac:(vm_compute; discriminate)).
    pose proof (clip_pos_lower 5 _ 1 10 (4 # 9) eq_refl Hha
                  ltac:(vm_compute; discriminate)).
    pose proof (clip_neg_lower 5 _ 0 12 (7 # 12) eq_refl Hsc
                  ltac:(vm_compute; discriminate)).
    pose proof (clip_neg_lower 6 _ 1 10 (4 # 9) eq_refl Hst
                  ltac:(vm_compute; discriminate)).
    pose proof (clip_neg_lower 6 _ 1 10 (4 # 9) eq_refl Han
                  ltac:(vm_compute; discriminate)).
    pose proof (clip_neg_lower 6 _ 1 10 (4 # 9) eq_refl Hde
                  ltac:(vm_compute; discriminate)).
    bound_clips. lra.
  - constructor; cbn; (lra || lia).
  - eexists. split; [|vm_compute; reflexivity]. vm_compute. reflexivity.
Qed.

Lemma X17_witness :
  recommendations quiet_minimum = [] /\
  exists s, mhs_score quiet_minimum = Ok s /\ 874 # 21 <= s.
Proof.
  assert (H : recommendations quiet_minimum = []) by reflexivity.
  split; [exact H|].
  exact (proj1 X17_score_floor_without_tips quiet_minimum H).
Defined.

(* ------------------------------------------------------------------ *)
(** ** Further properties: the tier and the page *)

(** X20.  A higher score never gets a lower tier: between two scores
    [s <= t], if [s] is favorable so is [t], if [t] is concerning so is
    [s], and a fair [s] is never followed by a concerning [t]. *)
Theorem X20_tier_monotone (s t : Q) :
  s <= t ->
  (tier s = Favorable -> tier t = Favorable) /\
  (tier t = Concerning -> tier s = Concerning) /\
  (tier s = Fair -> tier t <> Concerning).
Proof.
  intros Hst. unfold tier.
  destruct (s >=? 75) eqn:S1; destruct (s >=? 50) eqn:S2;
    destruct (t >=? 75) eqn:T1; destruct (t >=? 50) eqn:T2;
    reflect_cmp; repeat split; intros; try discriminate;
    try reflexivity; lra.
Qed.

Lemma X20_witness :
  80 <= 90.5 /\ tier 80 = Favorable /\ tier 90.5 = Favorable.
Proof.
  assert (H : 80 <= 90.5) by discriminate.
  split; [exact H|]. split; [reflexivity|].
  apply (proj1 (X20_tier_monotone 80 90.5 H)). reflexivity.
Defined.

(* ------------------------------------------------------------------ *)
(** ** Python numbers: where the operations raise *)




Lemma to_float_int_overflow (n : Z) :
  (Py.float_limit <= Z.abs n)%Z ->
  Py.to_float (Py.Int n) = Raise OverflowError.
Proof.
  intros H. unfold Py.to_float.
  destruct (Py.float_limit <=? Z.abs n)%Z eqn:E; [reflexivity|].
  apply Z.leb_gt in E. lia.
Qed.

(** The three outcomes of [int / int]. *)
Lemma truediv_int (m n : Z) :
  Py.truediv (Py.Int m) (Py.Int n) =
  if (n =? 0)%Z then Raise ZeroDivisionError
  else if (Py.float_limit * Z.abs n <=? Z.abs m)%Z then Raise OverflowError
  else Ok (inject_Z m / inject_Z n).
Proof. reflexivity. Qed.




Section IntBounds.

Variables (min_val max_val : Z).
Hypothesis Hlt : (min_val < max_val)%Z.
Hypothesis Hmin : (Z.abs min_val <= 2 ^ 52)%Z.
Hypothesis Hmax : (Z.abs max_val <= 2 ^ 52)%Z.






End IntBounds.




(* ------------------------------------------------------------------ *)
(** ** Claim C7, on Python numbers *)




(* ------------------------------------------------------------------ *)
(** ** Further properties, on Python numbers *)

(** The three outcomes of a normaliser on integers. *)
Lemma normalize_positive_ints (x min_val max_val : Z) :
  Py.normalize_positive (Py.Int x) (Py.Int min_val) (Py.Int max_val) =
  if (max_val - min_val =? 0)%Z then Raise ZeroDivisionError
  else if (Py.float_limit * Z.abs (max_val - min_val) <=? Z.abs (x - min_val))%Z
       then Raise OverflowError
       else Ok (clip (inject_Z (x - min_val) / inject_Z (max_val - min_val))
                     0 1).
Proof.
  unfold Py.normalize_positive. cbn [Py.sub bind]. rewrite truediv_int.
  destruct (max_val - min_val =? 0)%Z; [reflexivity|].
  destruct (Py.float_limit * Z.abs (max_val - min_val)
            <=? Z.abs (x - min_val))%Z; reflexivity.
Qed.

Lemma normalize_negative_ints (x min_val max_val : Z) :
  Py.normalize_negative (Py.Int x) (Py.Int min_val) (Py.Int max_val) =
  if (max_val - min_val =? 0)%Z then Raise ZeroDivisionError
  else if (Py.float_limit * Z.abs (max_val - min_val) <=? Z.abs (x - min_val))%Z
       then Raise OverflowError
       else Ok (clip (1 - inject_Z (x - min_val) / inject_Z (max_val - min_val))
                     0 1).
Proof.
  unfold Py.normalize_negative. cbn [Py.sub bind]. rewrite truediv_int.
  destruct (max_val - min_val =? 0)%Z; [reflexivity|].
  destruct (Py.float_limit * Z.abs (max_val - min_val)
            <=? Z.abs (x - min_val))%Z; reflexivity.
Qed.

(** X1.  On Python integers [x], [min_val], [max_val] a linear normaliser
    has three outcomes, the same for both functions.  It raises
    [ZeroDivisionError] exactly when the bounds are equal; it raises
    [OverflowError] exactly when they differ and the quotient
    [(x - min_val) / (max_val - min_val)] is too large for a double, that
    is of magnitude 2^1024 - 2^970 or more; in every other case it returns
    a value in [0,1].  With a float among the bounds even distinct bounds
    can divide by zero: the integer 2^53 + 1 converts to the float 2^53. *)
Theorem X1_integer_normalizers_outcomes (x min_val max_val : Z) :
  let overflows :=
    (Py.float_limit * Z.abs (max_val - min_val) <= Z.abs (x - min_val))%Z in
  let pos := Py.normalize_positive (Py.Int x) (Py.Int min_val) (Py.Int max_val) in
  let neg := Py.normalize_negative (Py.Int x) (Py.Int min_val) (Py.Int max_val) in
  (pos = Raise ZeroDivisionError <-> min_val = max_val) /\
  (neg = Raise ZeroDivisionError <-> min_val = max_val) /\
  (pos = Raise OverflowError <-> min_val <> max_val /\ overflows) /\
  (neg = Raise OverflowError <-> min_val <> max_val /\ overflows) /\
  ((exists p, pos = Ok p /\ 0 <= p <= 1) <->
   min_val <> max_val /\ ~ overflows) /\
  ((exists n, neg = Ok n /\ 0 <= n <= 1) <->
   min_val <> max_val /\ ~ overflows) /\
  (forall q : Q,
     Py.normalize_positive (Py.Float q) (Py.Float (inject_Z (2 ^ 53)))
       (Py.Int (2 ^ 53 + 1)) = Raise ZeroDivisionError).
Proof.
  cbv zeta.
  rewrite normalize_positive_ints, normalize_negative_ints.
  destruct (Z.eqb_spec (max_val - min_val) 0) as [E0 | N0].
  - repeat split; intros; try discriminate; try lia;
      try (destruct H as (? & ? & _); discriminate);
      try (destruct H; lia).
  - destruct (Z.leb_spec (Py.float_limit * Z.abs (max_val - min_val))
                         (Z.abs (x - min_val))) as [Ho | Hn].
    + repeat split; intros; try discriminate; try lia;
        try (destruct H as (? & ? & _); discriminate);
        try (destruct H; lia).
    + repeat split; intros; try discriminate; try lia;
        try (destruct H; lia);
        try (eexists; split; [reflexivity | apply clip_unit_range]).
Qed.

Lemma X1_witness :
  Py.normalize_positive (Py.Int 5) (Py.Int 3) (Py.Int 3)
    = Raise ZeroDivisionError /\
  Py.normalize_negative (Py.Int (- 10 ^ 400)) (Py.Int 1) (Py.Int 10)
    = Raise OverflowError /\
  exists p, Py.normalize_positive (Py.Int (10 ^ 308)) (Py.Int 0) (Py.Int 7)
              = Ok p /\ 0 <= p <= 1.
Proof.
  split; [|split].
  - apply (proj1 (X1_integer_normalizers_outcomes 5 3 3)). reflexivity.
  - apply (proj1 (proj2 (proj2 (proj2
             (X1_integer_normalizers_outcomes (- 10 ^ 400) 1 10))))).
    split; [discriminate | vm_compute; discriminate].
  - apply (proj1 (proj2 (proj2 (proj2 (proj2
             (X1_integer_normalizers_outcomes (10 ^ 308) 0 7)))))).
    split; [discriminate | vm_compute; intros H; apply H; reflexivity].
Defined.




(** X21.  The balloons are on the page exactly when the value of
    [mhs_score] the handler branches on is at least 75, whatever that
    value is; the tips section never adds them.  The branch sees the last
    bit of that value: the batch [edge_of_favorable] lies within the
    widgets' ranges and scores exactly 75, but the double the program
    computes for it is below 75, so on it the program takes the fair
    branch, without balloons. *)
Theorem X21_balloons_follow_the_branch_value :
  (forall (score : Q) (i : Inputs),
     In Balloons (show_page score i) <-> 75 <= score) /\
  in_domain edge_of_favorable /\
  mhs_score edge_of_favorable ~> 75 /\
  exists f,
    Binary64.mhs_score Binary64.edge_of_favorable = Some f /\
    PrimFloat.ltb f 75 = true /\
    Binary64.tier f = Fair.
Proof.
  split; [|split; [|split]].
  - intros s i.
    assert (Htips : ~ In Balloons (show_tips (recommendations i))).
    { unfold show_tips. destruct (recommendations i) as [|t l].
      - cbn. intros [H | []]. discriminate.
      - rewrite in_map_iff. intros (x & Hx & _). discriminate. }
    unfold show_page. cbn [app In]. rewrite in_app_iff. cbn [In].
    unfold tier, show_tier.
    destruct (s >=? 75) eqn:B1; [|destruct (s >=? 50) eqn:B2];
      reflect_cmp; cbn [In]; split; intros H; try lra.
    + right. right. left. right. left. reflexivity.
    + exfalso. decompose [or] H; try discriminate; tauto.
    + exfalso. decompose [or] H; try discriminate; tauto.
  - constructor; cbn; (lra || lia).
  - eexists. split; [vm_compute; reflexivity | reflexivity].
  - eexists. split; [vm_compute; reflexivity|].
    split; vm_compute; reflexivity.
Qed.
